(** * Commit listing service: the route handlers of [server.js]

    A shallow embedding of the two Express handlers of [src/server.js]
    ([GET /api/commits] and [GET /health]) together with a small model of
    the PostgreSQL store the first one talks to.

    - JavaScript numbers produced by [parseInt] are modelled by [num]: [NaN]
      or an integer in [Z] that is a double ([JS.to_double] rounds to the
      nearest one); 2^1024 and its opposite stand for [Infinity] and
      [-Infinity].
    - A query-string parameter is [option string]: [None] is [undefined]
      (the parameter is absent), [Some s] the text given once in the URL.
    - [pool.query] is an argument of the handler; every call made to it is
      recorded in the [issued] list of the outcome.
    - Strings are byte strings holding UTF-8, as the text of a URL is once
      its percent escapes are decoded.
    - When both calls to the store are rejected, which rejection comes
      first is an argument of the handler.
    - What the handlers write to the console is left out. *)

From Stdlib Require Import ZArith QArith Qround Lia Bool List Ascii String.
From Stdlib Require Import Decimal DecimalString DecimalZ DecimalN DecimalPos.
From Stdlib Require Import Sorting.Sorted Sorting.Permutation.
Import ListNotations.

#[local] Open Scope string_scope.
#[local] Open Scope Z_scope.

(** ** JavaScript primitives used by the handler *)

Module JS.

(** The result of [parseInt] and of arithmetic on it. *)
Inductive num : Type :=
| NaN
| Int (z : Z).

(** [ToString] of a query-string value. *)
Definition ToString (v : option string) : string :=
  match v with
  | None => "undefined"
  | Some s => s
  end.

(** [ToBoolean] of a query-string value: [undefined] and [''] are falsy. *)
Definition truthy (v : option string) : bool :=
  match v with
  | None => false
  | Some s => negb (s =? "")%string
  end.

(** [ToBoolean] of a string. *)
Definition truthy_string (s : string) : bool := negb (s =? "")%string.

(** [v || null] on a query-string value. *)
Definition or_null (v : option string) : option string :=
  if truthy v then v else None.

(** [v === s] for a string [s]: never true of [undefined]. *)
Definition strict_equals (v : option string) (s : string) : bool :=
  match v with
  | None => false
  | Some x => (x =? s)%string
  end.

(** [n || d] on a number: [NaN] and [0] are falsy. *)
Definition or_default (n : num) (d : Z) : Z :=
  match n with
  | NaN => d
  | Int z => if z =? 0 then d else z
  end.

(** White space and line ends of one byte: TAB, LF, VT, FF, CR, SP. *)
Definition is_space (c : ascii) : bool :=
  let n := Z.of_N (N_of_ascii c) in
  ((9 <=? n) && (n <=? 13)) || (n =? 32).

(** White space of two bytes: U+00A0. *)
Definition is_space2 (a b : ascii) : bool :=
  let x := Z.of_N (N_of_ascii a) in
  let y := Z.of_N (N_of_ascii b) in
  (x =? 194) && (y =? 160).

(** White space and line ends of three bytes: U+1680, U+2000 to U+200A,
    U+2028, U+2029, U+202F, U+205F, U+3000 and U+FEFF. *)
Definition is_space3 (a b c : ascii) : bool :=
  let x := Z.of_N (N_of_ascii a) in
  let y := Z.of_N (N_of_ascii b) in
  let z := Z.of_N (N_of_ascii c) in
  ((x =? 225) && (y =? 154) && (z =? 128))
  || ((x =? 226) && (y =? 128)
      && (((128 <=? z) && (z <=? 138)) || (z =? 168) || (z =? 169)
          || (z =? 175)))
  || ((x =? 226) && (y =? 129) && (z =? 159))
  || ((x =? 227) && (y =? 128) && (z =? 128))
  || ((x =? 239) && (y =? 187) && (z =? 191)).

(** The text without the white space and line ends it starts with. *)
Fixpoint trim_start (s : string) : string :=
  match s with
  | String a r =>
      if is_space a then trim_start r
      else
        match r with
        | String b r2 =>
            if is_space2 a b then trim_start r2
            else
              match r2 with
              | String c r3 => if is_space3 a b c then trim_start r3 else s
              | EmptyString => s
              end
        | EmptyString => s
        end
  | EmptyString => s
  end.

(** 2^53: every integer below it is a double. *)
Definition safe_bound : Z := 9007199254740992.

(** 2^1024, above every finite double; it stands for [Infinity]. *)
Definition infinity : Z := Z.shiftl 1 1024.

(** The double nearest to an integer, ties going to the even significand
    of 53 bits; [infinity] or its opposite from 2^1024 - 2^970 on. *)
Definition to_double (z : Z) : Z :=
  let a := Z.abs z in
  if a <? safe_bound then z
  else
    let e := Z.log2 a - 52 in
    let q := Z.shiftr a e in
    let r := a - Z.shiftl q e in
    let half := Z.shiftl 1 (e - 1) in
    let q' := if (half <? r) || ((r =? half) && Z.odd q) then q + 1 else q in
    let v := Z.shiftl q' e in
    Z.sgn z * (if infinity <=? v then infinity else v).

(** The value of [c] as a digit in the given radix, if it is one. *)
Definition digit_of (radix : Z) (c : ascii) : option Z :=
  let n := Z.of_N (N_of_ascii c) in
  let v :=
    if (48 <=? n) && (n <=? 57) then Some (n - 48)
    else if (97 <=? n) && (n <=? 122) then Some (n - 87)
    else if (65 <=? n) && (n <=? 90) then Some (n - 55)
    else None in
  match v with
  | Some d => if d <? radix then Some d else None
  | None => None
  end.

(** The number written by the longest prefix of digits of [s]; [acc] is
    [None] until a digit has been read. *)
Fixpoint digits_value (radix : Z) (acc : option Z) (s : string) : option Z :=
  match s with
  | String c r =>
      match digit_of radix c with
      | Some d =>
          digits_value radix
            (Some (radix * match acc with Some a => a | None => 0 end + d)) r
      | None => acc
      end
  | EmptyString => acc
  end.

(** [parseInt(string)] with no radix argument: leading white space, an
    optional sign, an optional [0x]/[0X] prefix selecting radix 16, then
    the longest run of digits; [NaN] when that run is empty, else the
    double nearest to the number written (as V8 computes it). *)
Definition parseInt_string (s : string) : num :=
  let s1 := trim_start s in
  let '(neg, s2) :=
    match s1 with
    | String c r =>
        if (c =? "-")%char then (true, r)
        else if (c =? "+")%char then (false, r)
        else (false, s1)
    | EmptyString => (false, s1)
    end in
  let '(radix, s3) :=
    match s2 with
    | String c0 (String c1 r) =>
        if ((c0 =? "0") && ((c1 =? "x") || (c1 =? "X")))%char
        then (16, r) else (10, s2)
    | _ => (10, s2)
    end in
  match digits_value radix None s3 with
  | None => NaN
  | Some n => Int (to_double (if neg then - n else n))
  end.

Definition parseInt (v : option string) : num := parseInt_string (ToString v).

(** [a - b] and [a * b] on doubles that hold integers or are infinite.
    The product of 0 and an infinite number is [NaN]. *)
Definition sub (a b : Z) : Z := to_double (a - b).

Definition mul (a b : Z) : num :=
  if ((a =? 0) && (infinity <=? Z.abs b))
     || ((b =? 0) && (infinity <=? Z.abs a))
  then NaN else Int (to_double (a * b)).

(** The decimal digits of an integer, with its sign. *)
Definition decimal (z : Z) : string := NilZero.string_of_int (Z.to_int z).

(** A run of digits without the zeros it ends with. *)
Fixpoint strip_zeros (s : string) : string :=
  match s with
  | EmptyString => EmptyString
  | String c r =>
      match strip_zeros r with
      | EmptyString =>
          if (c =? "0")%char then EmptyString else String c EmptyString
      | r' => String c r'
      end
  end.

(** The integer nearest to the double [a] among those written with [k]
    digits followed by zeros, when it is read back as [a]. *)
Definition candidate (a k : Z) : option Z :=
  let e := Z.of_nat (String.length (decimal a)) - k in
  if e <=? 0 then Some a
  else
    let p := 10 ^ e in
    let lo := (a / p) * p in
    let hi := lo + p in
    match to_double lo =? a, to_double hi =? a with
    | true, true =>
        Some (if a - lo <? hi - a then lo
              else if hi - a <? a - lo then hi
              else if Z.even (a / p) then lo else hi)
    | true, false => Some lo
    | false, true => Some hi
    | false, false => None
    end.

(** The integer with the fewest digits before its final zeros that is read
    back as the double [a], trying [k], [k + 1], ... digits. *)
Fixpoint shortest_from (fuel : nat) (a k : Z) : Z :=
  match fuel with
  | O => a
  | S f =>
      match candidate a k with
      | Some w => w
      | None => shortest_from f a (k + 1)
      end
  end.

(** The text of a positive finite double from 2^53 on: its shortest
    digits; all of them up to 21 digits, in exponent form beyond. *)
Definition large_to_string (a : Z) : string :=
  let w := shortest_from 17 a 1 in
  let digits := decimal w in
  let n := Z.of_nat (String.length digits) in
  if n <=? 21 then digits
  else
    match strip_zeros digits with
    | String c EmptyString => String c EmptyString ++ "e+" ++ decimal (n - 1)
    | String c r => String c ("." ++ r) ++ "e+" ++ decimal (n - 1)
    | EmptyString => digits
    end.

(** [String(n)] / [`${n}`] for a double that holds an integer or is
    infinite.  Below 2^53 the shortest digits are the decimal digits. *)
Definition number_to_string (z : Z) : string :=
  let a := Z.abs z in
  if a <? safe_bound then decimal z
  else if infinity <=? a then (if z <? 0 then "-Infinity" else "Infinity")
  else (if z <? 0 then "-" else "") ++ large_to_string a.

(** [String(n)] for any number. *)
Definition num_to_string (n : num) : string :=
  match n with
  | NaN => "NaN"
  | Int z => number_to_string z
  end.

(** [Math.ceil(a / b)], only used with [b] from 1 to 100.  The quotient of
    the doubles is the exact quotient rounded; for [a] below 2^53 its
    ceiling is that of the exact quotient, which is taken here. *)
Definition ceil_div (a b : Z) : Z := Qceiling (inject_Z a / inject_Z b).

Definition math_ceil_div (a : num) (b : Z) : num :=
  match a with
  | NaN => NaN
  | Int z => Int (ceil_div z b)
  end.

(** [a < b] where [b] may be [NaN] (every comparison with [NaN] is false). *)
Definition lt (a : Z) (b : num) : bool :=
  match b with
  | NaN => false
  | Int z => a <? z
  end.

(** [arr.slice(0, e)]: a negative [e] counts from the end of the array. *)
Definition slice0 {A : Type} (l : list A) (e : Z) : list A :=
  let len := Z.of_nat (List.length l) in
  let k := if e <? 0 then Z.max (len + e) 0 else Z.min e len in
  firstn (Z.to_nat k) l.

End JS.

(** ** Requests, responses and the backing store interface *)

(** [req.query] of a request. *)
Record Query : Type := {
  query_page : option string;
  query_limit : option string;
  query_start_date : option string;
  query_end_date : option string
}.

(** A row as the driver delivers it: column names with their text. *)
Definition Row : Type := list (string * string).

(** What a call of [pool.query] settles to. *)
Inductive QResult : Type :=
| Rows (rows : list Row)
| Rejected (message : string).

Record Pagination : Type := {
  total : JS.num;
  page : Z;
  limit : Z;
  totalPages : JS.num;
  hasNextPage : bool;
  hasPrevPage : bool
}.

Record Filters : Type := {
  startDate : option string;
  endDate : option string
}.

(** The JSON bodies the handlers send.  A field whose value is [undefined]
    is left out by [res.json]; it is [None] here. *)
Inductive Body : Type :=
| PageBody (success : bool) (data : list Row)
           (pagination : Pagination) (filters : Filters)
| ErrorBody (success : bool) (error : string) (message : option string)
| HealthBody (status : string).

Record Response : Type := {
  status : Z;
  body : Body
}.

(** One call of [pool.query(text, values)]. *)
Definition Call : Type := (string * list string)%type.

(** What handling one request amounts to: the response sent and the calls
    made to the store, in order. *)
Record Outcome : Type := {
  response : Response;
  issued : list Call
}.

Definition body_success (b : Body) : option bool :=
  match b with
  | PageBody s _ _ _ => Some s
  | ErrorBody s _ _ => Some s
  | HealthBody _ => None
  end.

Definition body_data (b : Body) : option (list Row) :=
  match b with
  | PageBody _ d _ _ => Some d
  | _ => None
  end.

Definition body_pagination (b : Body) : option Pagination :=
  match b with
  | PageBody _ _ p _ => Some p
  | _ => None
  end.

Definition body_filters (b : Body) : option Filters :=
  match b with
  | PageBody _ _ _ f => Some f
  | _ => None
  end.

Definition body_message (b : Body) : option string :=
  match b with
  | ErrorBody _ _ m => m
  | _ => None
  end.

(** Column [c] of a row; [None] is [undefined]. *)
Fixpoint field (c : string) (r : Row) : option string :=
  match r with
  | [] => None
  | (k, v) :: r' => if (k =? c)%string then Some v else field c r'
  end.

(** ** The handlers *)

Section Handlers.

(** [pool.query] and [process.env.NODE_ENV]; and, for the case that both
    calls to the store are rejected, whether the count call is rejected
    before the data call. *)
Variable pool_query : string -> list string -> QResult.
Variable NODE_ENV : option string.
Variable count_rejects_first : bool.

Definition nl : string := String (ascii_of_nat 10) "".

(** Lines 63-73. *)
Definition whereClause (startDate endDate : option string) : string :=
  if JS.truthy startDate && JS.truthy endDate then
    "WHERE created_at BETWEEN '" ++ JS.ToString startDate
      ++ "'::timestamptz AND '" ++ JS.ToString endDate ++ "'::timestamptz"
  else if JS.truthy startDate then
    "WHERE created_at >= '" ++ JS.ToString startDate ++ "'::timestamptz"
  else if JS.truthy endDate then
    "WHERE created_at <= '" ++ JS.ToString endDate ++ "'::timestamptz"
  else "".

(** Lines 79-84. *)
Definition query_text (whereClause : string) (page limit : Z) : string :=
  nl ++ "      SELECT * FROM commits " ++ nl
     ++ "      " ++ whereClause ++ nl
     ++ "      ORDER BY created_at ASC" ++ nl
     ++ "      LIMIT " ++ JS.number_to_string limit
     ++ " OFFSET " ++ JS.num_to_string (JS.mul page limit) ++ nl
     ++ "    ".

(** Lines 87-90. *)
Definition countQuery_text (whereClause : string) : string :=
  nl ++ "      SELECT COUNT(*) AS total FROM commits " ++ nl
     ++ "      " ++ whereClause ++ nl
     ++ "    ".

(** The [catch] block, lines 125-132. *)
Definition server_error (message : string) : Response :=
  {| status := 500;
     body := ErrorBody false "Internal server error"
               (if JS.strict_equals NODE_ENV "development"
                then Some message else None) |}.

(** The message of the [TypeError] raised by [countResult.rows[0].total]
    when the count query delivered no row. *)
Definition no_row_message : string :=
  "Cannot read properties of undefined (reading 'total')".

(** [await Promise.all([...])] and the rest of the [try] block, lines
    99-124.  [Promise.all] is rejected with the error of the call that is
    rejected first. *)
Definition assemble (commitsResult countResult : QResult)
    (page limit : Z) (startDate endDate : option string) : Response :=
  match commitsResult, countResult with
  | Rejected m, Rejected m' =>
      server_error (if count_rejects_first then m' else m)
  | Rejected m, Rows _ => server_error m
  | Rows _, Rejected m => server_error m
  | Rows commits, Rows [] => server_error no_row_message
  | Rows commits, Rows (row0 :: _) =>
      let totalCount := JS.parseInt (field "total" row0) in
      let totalPages := JS.math_ceil_div totalCount limit in
      {| status := 200;
         body := PageBody true commits
                   {| total := totalCount;
                      page := page;
                      limit := limit;
                      totalPages := totalPages;
                      hasNextPage := JS.lt page totalPages;
                      hasPrevPage := 1 <? page |}
                   {| startDate := JS.or_null startDate;
                      endDate := JS.or_null endDate |} |}
  end.

(** [app.get('/api/commits', ...)], lines 36-133. *)
Definition get_commits (q : Query) : Outcome :=
  let page := JS.or_default (JS.parseInt (query_page q)) 1 in
  let limit := JS.or_default (JS.parseInt (query_limit q)) 10 in
  let startDate := query_start_date q in
  let endDate := query_end_date q in
  let offset := JS.mul (JS.sub page 1) limit in
  if (page <? 1) || (limit <? 1) then
    {| response :=
         {| status := 400;
            body := ErrorBody false
                      "Page and limit must be positive integers" None |};
       issued := [] |}
  else if limit >? 100 then
    {| response :=
         {| status := 400;
            body := ErrorBody false
                      "Maximum limit is 100 records per request" None |};
       issued := [] |}
  else
    let whereClause := whereClause startDate endDate in
    let queryParams : list string := [] in
    let query := query_text whereClause page limit in
    let countQuery := countQuery_text whereClause in
    let countQueryParams :=
      if JS.truthy_string whereClause
      then JS.slice0 queryParams (Z.of_nat (List.length queryParams) - 2)
      else [] in
    let commitsResult := pool_query query queryParams in
    let countResult := pool_query countQuery countQueryParams in
    {| response :=
         assemble commitsResult countResult page limit startDate endDate;
       issued := [(query, queryParams); (countQuery, countQueryParams)] |}.

(** [app.get('/health', ...)], lines 136-138. *)
Definition get_health (q : Query) : Outcome :=
  {| response := {| status := 200; body := HealthBody "ok" |};
     issued := [] |}.

End Handlers.

(** ** A model of the store

    The part of PostgreSQL that the two statements of the handler exercise:
    a lexer and a parser for single [SELECT] statements over the [commits]
    table, and their evaluation on a table held as a list.  Statements are
    read from their text, as the server reads them.  How the server reads a
    timestamp literal is left open ([timestamptz_in]). *)

Module Pg.

Inductive token : Type :=
| KSelect | KFrom | KWhere | KOrder | KBy | KAsc | KLimit | KOffset
| KCount | KAs | KBetween | KAnd | KOr
| TIdent (w : string)
| TLit (s : string)
| TNum (n : Z)
| TDec (m scale : Z)          (* the number m * 10^scale *)
| TStar | TLParen | TRParen | TGe | TLe | TCast.

Definition code (c : ascii) : Z := Z.of_N (N_of_ascii c).

Definition is_blank (c : ascii) : bool :=
  let n := code c in
  (n =? 32) || (n =? 9) || (n =? 10) || (n =? 13) || (n =? 12).

Definition is_digit (c : ascii) : bool :=
  let n := code c in (48 <=? n) && (n <=? 57).

Definition is_upper (c : ascii) : bool :=
  let n := code c in (65 <=? n) && (n <=? 90).

Definition is_lower (c : ascii) : bool :=
  let n := code c in (97 <=? n) && (n <=? 122).

Definition is_word_start (c : ascii) : bool :=
  is_upper c || is_lower c || (c =? "_")%char || (128 <=? code c).

Definition is_word_char (c : ascii) : bool := is_word_start c || is_digit c.

Definition to_upper (c : ascii) : ascii :=
  if is_lower c then ascii_of_N (Z.to_N (code c - 32)) else c.

Definition to_lower (c : ascii) : ascii :=
  if is_upper c then ascii_of_N (Z.to_N (code c + 32)) else c.

Fixpoint map_string (f : ascii -> ascii) (s : string) : string :=
  match s with
  | EmptyString => EmptyString
  | String c r => String (f c) (map_string f r)
  end.

(** Key words are recognised in any case; other words are identifiers and
    fold to lower case. *)
Definition word_token (w : string) : token :=
  let u := map_string to_upper w in
  if (u =? "SELECT")%string then KSelect
  else if (u =? "FROM")%string then KFrom
  else if (u =? "WHERE")%string then KWhere
  else if (u =? "ORDER")%string then KOrder
  else if (u =? "BY")%string then KBy
  else if (u =? "ASC")%string then KAsc
  else if (u =? "LIMIT")%string then KLimit
  else if (u =? "OFFSET")%string then KOffset
  else if (u =? "COUNT")%string then KCount
  else if (u =? "AS")%string then KAs
  else if (u =? "BETWEEN")%string then KBetween
  else if (u =? "AND")%string then KAnd
  else if (u =? "OR")%string then KOr
  else TIdent (map_string to_lower w).

(** What the lexer is in the middle of. *)
Inductive mode : Type :=
| Idle
| InWord (w : string)
| InNum (n : Z)
| InFrac (m f : Z)            (* digits m, f of them after the point *)
| InExp0 (m f : Z)            (* e seen *)
| InExp1 (m f : Z) (neg : bool)         (* e and a sign seen *)
| InExp (m f : Z) (neg : bool) (x : Z)  (* exponent digits x *)
| InLit (s : string)          (* inside '...' *)
| LitQuote (s : string)       (* a quote seen inside a literal *)
| Op (c : ascii).             (* first character of >=, <= or :: *)

(** The lexer state: the mode and the tokens produced so far, last first. *)
Definition lex_state : Type := (mode * list token)%type.

Definition snoc (s : string) (c : ascii) : string := s ++ String c "".

Definition is_exponent_mark (c : ascii) : bool :=
  ((c =? "e") || (c =? "E"))%char.

(** A character met between tokens. *)
Definition start (toks : list token) (c : ascii) : option lex_state :=
  if is_blank c then Some (Idle, toks)
  else if is_word_start c then Some (InWord (String c ""), toks)
  else if is_digit c then Some (InNum (code c - 48), toks)
  else if (c =? "'")%char then Some (InLit "", toks)
  else if (c =? "*")%char then Some (Idle, TStar :: toks)
  else if (c =? "(")%char then Some (Idle, TLParen :: toks)
  else if (c =? ")")%char then Some (Idle, TRParen :: toks)
  else if ((c =? ">") || (c =? "<") || (c =? ":"))%char then Some (Op c, toks)
  else None.

Definition step (st : lex_state) (c : ascii) : option lex_state :=
  let '(m, toks) := st in
  match m with
  | Idle => start toks c
  | InWord w =>
      if is_word_char c then Some (InWord (snoc w c), toks)
      else start (word_token w :: toks) c
  | InNum n =>
      if is_digit c then Some (InNum (10 * n + (code c - 48)), toks)
      else if (c =? ".")%char then Some (InFrac n 0, toks)
      else if is_exponent_mark c then Some (InExp0 n 0, toks)
      else if is_word_start c then None
      else start (TNum n :: toks) c
  | InFrac m f =>
      if is_digit c then Some (InFrac (10 * m + (code c - 48)) (f + 1), toks)
      else if is_exponent_mark c then Some (InExp0 m f, toks)
      else if is_word_start c then None
      else start (TDec m (- f) :: toks) c
  | InExp0 m f =>
      if is_digit c then Some (InExp m f false (code c - 48), toks)
      else if (c =? "+")%char then Some (InExp1 m f false, toks)
      else if (c =? "-")%char then Some (InExp1 m f true, toks)
      else None
  | InExp1 m f neg =>
      if is_digit c then Some (InExp m f neg (code c - 48), toks)
      else None
  | InExp m f neg x =>
      if is_digit c then Some (InExp m f neg (10 * x + (code c - 48)), toks)
      else if is_word_start c then None
      else start (TDec m ((if neg then - x else x) - f) :: toks) c
  | InLit s =>
      if (c =? "'")%char then Some (LitQuote s, toks)
      else Some (InLit (snoc s c), toks)
  | LitQuote s =>
      if (c =? "'")%char then Some (InLit (snoc s c), toks)
      else start (TLit s :: toks) c
  | Op o =>
      if ((o =? ">") && (c =? "="))%char then Some (Idle, TGe :: toks)
      else if ((o =? "<") && (c =? "="))%char then Some (Idle, TLe :: toks)
      else if ((o =? ":") && (c =? ":"))%char then Some (Idle, TCast :: toks)
      else None
  end.

Fixpoint lex_run (st : lex_state) (s : string) : option lex_state :=
  match s with
  | EmptyString => Some st
  | String c r =>
      match step st c with
      | Some st' => lex_run st' r
      | None => None
      end
  end.

(** End of the text. *)
Definition finish (st : lex_state) : option (list token) :=
  let '(m, toks) := st in
  match m with
  | Idle => Some (List.rev toks)
  | InWord w => Some (List.rev (word_token w :: toks))
  | InNum n => Some (List.rev (TNum n :: toks))
  | InFrac m f => Some (List.rev (TDec m (- f) :: toks))
  | InExp0 _ _ => None
  | InExp1 _ _ _ => None
  | InExp m f neg x =>
      Some (List.rev (TDec m ((if neg then - x else x) - f) :: toks))
  | InLit _ => None
  | LitQuote s => Some (List.rev (TLit s :: toks))
  | Op _ => None
  end.

Definition lex (s : string) : option (list token) :=
  match lex_run (Idle, []) s with
  | Some st => finish st
  | None => None
  end.

(** Conditions on [created_at]; the literals are still text. *)
Inductive cond : Type :=
| Between (lo hi : string)
| AtLeast (lo : string)
| AtMost (hi : string)
| Or (a b : cond).

Inductive statement : Type :=
| SelectAll (where_ : option cond) (ordered : bool)
            (limit offset : option Z)
| SelectCount (alias : string) (where_ : option cond).

Definition is_name (w expected : string) : bool := (w =? expected)%string.

(** [atom ( OR atom )*] where an atom compares [created_at] with
    ['...'::timestamptz] literals. *)
Fixpoint parse_cond (ts : list token) : option (cond * list token) :=
  let more (a : cond) (rest : list token) :=
    match rest with
    | KOr :: rest' =>
        match parse_cond rest' with
        | Some (b, r) => Some (Or a b, r)
        | None => None
        end
    | _ => Some (a, rest)
    end in
  match ts with
  | TIdent c :: TGe :: TLit s :: TCast :: TIdent ty :: rest =>
      if is_name c "created_at" && is_name ty "timestamptz"
      then more (AtLeast s) rest else None
  | TIdent c :: TLe :: TLit s :: TCast :: TIdent ty :: rest =>
      if is_name c "created_at" && is_name ty "timestamptz"
      then more (AtMost s) rest else None
  | TIdent c :: KBetween :: TLit lo :: TCast :: TIdent ty
      :: KAnd :: TLit hi :: TCast :: TIdent ty' :: rest =>
      if is_name c "created_at" && is_name ty "timestamptz"
         && is_name ty' "timestamptz"
      then more (Between lo hi) rest else None
  | _ => None
  end.

Definition parse_where (ts : list token) : option (option cond * list token) :=
  match ts with
  | KWhere :: rest =>
      match parse_cond rest with
      | Some (c, r) => Some (Some c, r)
      | None => None
      end
  | _ => Some (None, ts)
  end.

Definition parse_order (ts : list token) : option (bool * list token) :=
  match ts with
  | KOrder :: KBy :: TIdent c :: KAsc :: rest =>
      if is_name c "created_at" then Some (true, rest) else None
  | KOrder :: _ => None
  | _ => Some (false, ts)
  end.

(** The integer a number with a point or an exponent is taken for where
    a [bigint] is expected: the nearest one, halves away from zero. *)
Definition dec_value (m scale : Z) : Z :=
  if 0 <=? scale then m * 10 ^ scale
  else (2 * m + 10 ^ (- scale)) / (2 * 10 ^ (- scale)).

Definition parse_limit (ts : list token) : option (option Z * list token) :=
  match ts with
  | KLimit :: TNum n :: rest => Some (Some n, rest)
  | KLimit :: TDec m s :: rest => Some (Some (dec_value m s), rest)
  | KLimit :: _ => None
  | _ => Some (None, ts)
  end.

Definition parse_offset (ts : list token) : option (option Z * list token) :=
  match ts with
  | KOffset :: TNum n :: rest => Some (Some n, rest)
  | KOffset :: TDec m s :: rest => Some (Some (dec_value m s), rest)
  | KOffset :: _ => None
  | _ => Some (None, ts)
  end.

Definition parse_tail (w : option cond) (ts : list token) : option statement :=
  match parse_order ts with
  | Some (o, ts1) =>
      match parse_limit ts1 with
      | Some (l, ts2) =>
          match parse_offset ts2 with
          | Some (f, []) => Some (SelectAll w o l f)
          | _ => None
          end
      | None => None
      end
  | None => None
  end.

Definition parse (ts : list token) : option statement :=
  match ts with
  | KSelect :: TStar :: KFrom :: TIdent t :: rest =>
      if is_name t "commits" then
        match parse_where rest with
        | Some (w, rest') => parse_tail w rest'
        | None => None
        end
      else None
  | KSelect :: KCount :: TLParen :: TStar :: TRParen :: KAs :: TIdent a
      :: KFrom :: TIdent t :: rest =>
      if is_name t "commits" then
        match parse_where rest with
        | Some (w, []) => Some (SelectCount a w)
        | _ => None
        end
      else None
  | _ => None
  end.

(** A row of [commits]: the instant in its [created_at] column and the row
    as [SELECT *] delivers it. *)
Record commit : Type := {
  created_at : Z;
  columns : Row
}.

(** Conditions with their literals read. *)
Inductive bound : Type :=
| BBetween (lo hi : Z)
| BAtLeast (lo : Z)
| BAtMost (hi : Z)
| BOr (a b : bound).

Fixpoint sat (b : bound) (t : Z) : bool :=
  match b with
  | BBetween lo hi => (lo <=? t) && (t <=? hi)
  | BAtLeast lo => lo <=? t
  | BAtMost hi => t <=? hi
  | BOr a b' => sat a t || sat b' t
  end.

(** Stable insertion sort on [created_at]. *)
Fixpoint insert (c : commit) (l : list commit) : list commit :=
  match l with
  | [] => [c]
  | d :: l' =>
      if created_at c <=? created_at d then c :: l else d :: insert c l'
  end.

Fixpoint sort (l : list commit) : list commit :=
  match l with
  | [] => []
  | c :: l' => insert c (sort l')
  end.

Definition dq : string := String (ascii_of_nat 34) "".

(** The first words of the server's report of a syntax error; the server
    goes on with the place of the error, which is not modelled. *)
Definition syntax_error : string := "syntax error".

Definition bad_timestamp (literal : string) : string :=
  "invalid input syntax for type timestamp with time zone: "
  ++ dq ++ literal ++ dq.

Definition bigint_out_of_range : string := "bigint out of range".
Definition negative_limit : string := "LIMIT must not be negative".
Definition negative_offset : string := "OFFSET must not be negative".

Definition bind_mismatch (supplied : nat) : string :=
  "bind message supplies " ++ JS.decimal (Z.of_nat supplied)
  ++ " parameters, but prepared statement " ++ dq ++ dq ++ " requires 0".

(** The largest [bigint], 2^63 - 1. *)
Definition bigint_max : Z := 9223372036854775807.

(** A condition with its literals read, or the first literal the server
    rejects. *)
Inductive reading : Type :=
| Bound (b : bound)
| Unreadable (literal : string).

(** The rows a [WHERE] clause keeps, or the literal that is rejected. *)
Inductive selection : Type :=
| Selected (rows : list commit)
| BadLiteral (literal : string).

Section Store.

(** The server's input function for [timestamptz]: the instant a literal
    denotes, or [None] when the server rejects the text. *)
Variable timestamptz_in : string -> option Z.

Fixpoint read_cond (c : cond) : reading :=
  match c with
  | Between lo hi =>
      match timestamptz_in lo with
      | None => Unreadable lo
      | Some a =>
          match timestamptz_in hi with
          | None => Unreadable hi
          | Some b => Bound (BBetween a b)
          end
      end
  | AtLeast lo =>
      match timestamptz_in lo with
      | None => Unreadable lo
      | Some a => Bound (BAtLeast a)
      end
  | AtMost hi =>
      match timestamptz_in hi with
      | None => Unreadable hi
      | Some b => Bound (BAtMost b)
      end
  | Or a b =>
      match read_cond a with
      | Unreadable s => Unreadable s
      | Bound a' =>
          match read_cond b with
          | Unreadable s => Unreadable s
          | Bound b' => Bound (BOr a' b')
          end
      end
  end.

Definition select_where (w : option cond) (table : list commit)
  : selection :=
  match w with
  | None => Selected table
  | Some c =>
      match read_cond c with
      | Bound b => Selected (filter (fun r => sat b (created_at r)) table)
      | Unreadable s => BadLiteral s
      end
  end.

(** The list without its first [k] elements, and its first [k] elements. *)
Fixpoint drop (k : Z) (l : list commit) : list commit :=
  match l with
  | [] => []
  | c :: l' => if k <=? 0 then l else drop (k - 1) l'
  end.

Fixpoint take (k : Z) (l : list commit) : list commit :=
  match l with
  | [] => []
  | c :: l' => if k <=? 0 then [] else c :: take (k - 1) l'
  end.

Definition window (limit offset : option Z) (l : list commit) : list commit :=
  let l1 := match offset with Some f => drop f l | None => l end in
  match limit with Some n => take n l1 | None => l1 end.

Definition is_negative (n : option Z) : bool :=
  match n with Some z => z <? 0 | None => false end.

(** [LIMIT] and [OFFSET] take a [bigint]. *)
Definition exceeds_bigint (n : option Z) : bool :=
  match n with Some z => bigint_max <? z | None => false end.

Definition run (st : statement) (table : list commit) : QResult :=
  match st with
  | SelectAll w ordered limit offset =>
      match select_where w table with
      | BadLiteral s => Rejected (bad_timestamp s)
      | Selected sel =>
          if exceeds_bigint limit || exceeds_bigint offset
          then Rejected bigint_out_of_range
          else if is_negative limit then Rejected negative_limit
          else if is_negative offset then Rejected negative_offset
          else
            Rows (map columns
                    (window limit offset (if ordered then sort sel else sel)))
      end
  | SelectCount alias w =>
      match select_where w table with
      | BadLiteral s => Rejected (bad_timestamp s)
      | Selected sel =>
          Rows [[(alias, JS.decimal (Z.of_nat (List.length sel)))]]
      end
  end.

(** [pool.query(text, values)] against a store holding [table].  The
    statements of this fragment have no [$n] placeholder, so any bound
    value is one too many. *)
Definition query (table : list commit) (text : string) (values : list string)
  : QResult :=
  match lex text with
  | None => Rejected syntax_error
  | Some ts =>
      match parse ts with
      | None => Rejected syntax_error
      | Some st =>
          match values with
          | [] => run st table
          | _ :: _ => Rejected (bind_mismatch (List.length values))
          end
      end
  end.

End Store.

(** A reader of dates written [YYYY-MM-DD], for the worked examples: the
    date as the number [YYYYMMDD]. *)
Definition iso_date (s : string) : option Z :=
  match s with
  | String y1 (String y2 (String y3 (String y4 (String d1
      (String m1 (String m2 (String d2 (String a1 (String a2 "")))))))))
    =>
      if forallb is_digit [y1; y2; y3; y4; m1; m2; a1; a2]
         && (d1 =? "-")%char && (d2 =? "-")%char
      then
        let v c := code c - 48 in
        let month := 10 * v m1 + v m2 in
        let day := 10 * v a1 + v a2 in
        if (1 <=? month) && (month <=? 12) && (1 <=? day) && (day <=? 31)
        then Some (1000000 * (10 * v y1 + v y2)
                   + 10000 * (10 * v y3 + v y4) + 100 * month + day)
        else None
      else None
  | _ => None
  end.

End Pg.

(** ** The request as the handler sees it *)

(** The values of [page] and [limit] computed on lines 39-40. *)
Definition validated_page (q : Query) : Z :=
  JS.or_default (JS.parseInt (query_page q)) 1.

Definition validated_limit (q : Query) : Z :=
  JS.or_default (JS.parseInt (query_limit q)) 10.

(** The two statements the handler sends for [q]. *)
Definition data_call (q : Query) : Call :=
  (query_text (whereClause (query_start_date q) (query_end_date q))
     (validated_page q) (validated_limit q), []).

Definition count_call (q : Query) : Call :=
  (countQuery_text (whereClause (query_start_date q) (query_end_date q)), []).

Definition set_page (v : option string) (q : Query) : Query :=
  {| query_page := v; query_limit := query_limit q;
     query_start_date := query_start_date q;
     query_end_date := query_end_date q |}.

Definition set_limit (v : option string) (q : Query) : Query :=
  {| query_page := query_page q; query_limit := v;
     query_start_date := query_start_date q;
     query_end_date := query_end_date q |}.

Definition set_start_date (v : option string) (q : Query) : Query :=
  {| query_page := query_page q; query_limit := query_limit q;
     query_start_date := v;
     query_end_date := query_end_date q |}.

Definition set_end_date (v : option string) (q : Query) : Query :=
  {| query_page := query_page q; query_limit := query_limit q;
     query_start_date := query_start_date q;
     query_end_date := v |}.

(** A request with no parameter at all. *)
Definition bare : Query :=
  {| query_page := None; query_limit := None;
     query_start_date := None; query_end_date := None |}.

(** The request in which an absent or unparsable [page] is written [1] and
    an absent or unparsable [limit] is written [10]. *)
Definition with_defaults (q : Query) : Query :=
  {| query_page :=
       match JS.parseInt (query_page q) with
       | JS.NaN => Some "1"
       | JS.Int _ => query_page q
       end;
     query_limit :=
       match JS.parseInt (query_limit q) with
       | JS.NaN => Some "10"
       | JS.Int _ => query_limit q
       end;
     query_start_date := query_start_date q;
     query_end_date := query_end_date q |}.


(** ** Data for the worked examples *)

(** Twenty-five commits, one a day from 2024-01-01 on, numbered 1 to 25. *)
Definition commit_number (n : nat) : Pg.commit :=
  {| Pg.created_at := 20240100 + Z.of_nat n;
     Pg.columns := [("id", JS.number_to_string (Z.of_nat n))] |}.

Definition table25 : list Pg.commit := map commit_number (seq 1 25).

(** The store holding [table25], reading dates written [YYYY-MM-DD]. *)
Definition store25 : string -> list string -> QResult :=
  Pg.query Pg.iso_date table25.

(** A store that cannot be reached. *)
Definition unreachable : string -> list string -> QResult :=
  fun _ _ => Rejected "connect ECONNREFUSED".

(** The rows numbered [a], [a+1], ... ([n] of them) as they are delivered. *)
Definition rows_from (a n : nat) : list Row :=
  map (fun k => Pg.columns (commit_number k)) (seq a n).

Definition page_limit (p l : string) : Query :=
  set_limit (Some l) (set_page (Some p) bare).

(** A start date that closes the literal it is spliced into and adds a
    condition of its own. *)
Definition crafted_date : string :=
  "2025-01-01'::timestamptz OR created_at <= '9999-12-31".

(** ** Notions used to state the properties of the store *)

(** The number a run of decimal digits denotes, read from the left with
    [acc] already read. *)
Fixpoint uint_value (acc : Z) (d : uint) : Z :=
  match d with
  | Nil => acc
  | D0 d' => uint_value (10 * acc + 0) d'
  | D1 d' => uint_value (10 * acc + 1) d'
  | D2 d' => uint_value (10 * acc + 2) d'
  | D3 d' => uint_value (10 * acc + 3) d'
  | D4 d' => uint_value (10 * acc + 4) d'
  | D5 d' => uint_value (10 * acc + 5) d'
  | D6 d' => uint_value (10 * acc + 6) d'
  | D7 d' => uint_value (10 * acc + 7) d'
  | D8 d' => uint_value (10 * acc + 8) d'
  | D9 d' => uint_value (10 * acc + 9) d'
  end.

(** A text without the quote character. *)
Fixpoint quote_free (s : string) : bool :=
  match s with
  | EmptyString => true
  | String c r => negb (c =? "'")%char && quote_free r
  end.

(** A date without the quote character.  An absent date counts. *)
Definition plain (v : option string) : bool := quote_free (JS.ToString v).

(** The condition the WHERE clause of lines 67-73 is meant to express: the
    dates taken as timestamp literals. *)
Definition where_cond (startDate endDate : option string) : option Pg.cond :=
  if JS.truthy startDate && JS.truthy endDate then
    Some (Pg.Between (JS.ToString startDate) (JS.ToString endDate))
  else if JS.truthy startDate then Some (Pg.AtLeast (JS.ToString startDate))
  else if JS.truthy endDate then Some (Pg.AtMost (JS.ToString endDate))
  else None.

(** Reading a text as a statement. *)
Definition read_statement (text : string) : option Pg.statement :=
  match Pg.lex text with
  | Some ts => Pg.parse ts
  | None => None
  end.

(** The records a date filter allows: from [lo] on when there is a start,
    up to [hi] when there is an end, both bounds included. *)
Definition in_range (lo hi : option Z) (t : Z) : bool :=
  match lo with Some a => a <=? t | None => true end
  && match hi with Some b => t <=? b | None => true end.

Definition matching (lo hi : option Z) (table : list Pg.commit)
  : list Pg.commit :=
  filter (fun c => in_range lo hi (Pg.created_at c)) table.


(** The date [v] of a request is a timestamp: a text without quote
    character that the store reads as the instant [o].  An absent or empty
    date is no bound. *)
Definition denotes (timestamptz_in : string -> option Z)
    (v : option string) (o : option Z) : Prop :=
  match JS.or_null v, o with
  | None, None => True
  | Some s, Some a => quote_free s = true /\ timestamptz_in s = Some a
  | _, _ => False
  end.

(** The block of [l] rows of [sel] that starts after [k] rows. *)
Definition block (k l : Z) (sel : list Pg.commit) : list Row :=
  map Pg.columns (firstn (Z.to_nat l) (skipn (Z.to_nat k) sel)).

(** Requests used below. *)
Definition january_request : Query :=
  {| query_page := Some "1"; query_limit := Some "10";
     query_start_date := Some "2024-01-05";
     query_end_date := Some "2024-01-20" |}.

Definition empty_dates_request : Query :=
  set_end_date (Some "") (set_start_date (Some "") bare).

Definition crafted_request : Query :=
  set_start_date (Some crafted_date) bare.

(** The pagination block of the answer to [page=1&limit=10] on [store25]. *)
Definition pagination25 : Pagination :=
  {| total := JS.Int 25; page := 1; limit := 10; totalPages := JS.Int 3;
     hasNextPage := true; hasPrevPage := false |}.

(** ** Notions used for the further properties of the handlers *)

(** The outcome of the first validation, lines 48-53. *)
Definition invalid_pagination : Outcome :=
  {| response :=
       {| status := 400;
          body := ErrorBody false
                    "Page and limit must be positive integers" None |};
     issued := [] |}.

(** The outcome of the second validation, lines 55-60. *)
Definition limit_too_large : Outcome :=
  {| response :=
       {| status := 400;
          body := ErrorBody false
                    "Maximum limit is 100 records per request" None |};
     issued := [] |}.

(** A text that does not go on with a decimal digit: the empty text, or
    one that starts with another character. *)
Definition ends_numeral (t : string) : bool :=
  match t with
  | EmptyString => true
  | String c _ => negb (Pg.is_digit c)
  end.


(** The number of rows the date filter allows. *)
Definition matching_count (lo hi : option Z) (table : list Pg.commit) : Z :=
  Z.of_nat (List.length (matching lo hi table)).

(** A store whose every answer is empty, and one whose every answer is a
    single row without column. *)
Definition rowless : string -> list string -> QResult :=
  fun _ _ => Rows [].

Definition columnless : string -> list string -> QResult :=
  fun _ _ => Rows [[]].

(** Further requests used below. *)
Definition inverted_request : Query :=
  {| query_page := Some "1"; query_limit := Some "10";
     query_start_date := Some "2024-01-20";
     query_end_date := Some "2024-01-05" |}.

Definition unreadable_request : Query :=
  set_start_date (Some "the day before") bare.

(** ** Properties that hold whatever the store answers *)

Lemma append_assoc (a b c : string) : (a ++ b) ++ c = a ++ (b ++ c).
Proof. induction a as [|x a IH]; simpl; [reflexivity|now rewrite IH]. Qed.

Lemma append_empty_r (a : string) : a ++ "" = a.
Proof. induction a as [|x a IH]; simpl; [reflexivity|now rewrite IH]. Qed.

Section AnyStore.

Variable pool_query : string -> list string -> QResult.
Variable NODE_ENV : option string.
Variable count_rejects_first : bool.

#[local] Abbreviation handle :=
  (get_commits pool_query NODE_ENV count_rejects_first).

(** The second argument of the count call is always the empty array. *)
Lemma countQueryParams_empty (w : string) :
  (if JS.truthy_string w
   then JS.slice0 (@nil string) (Z.of_nat (List.length (@nil string)) - 2)
   else []) = [].
Proof. destruct (JS.truthy_string w); reflexivity. Qed.

(** A request that passes validation: both calls are made and the response
    is assembled from their results. *)
Lemma get_commits_accepted q :
  1 <= validated_page q -> 1 <= validated_limit q <= 100 ->
  handle q =
  {| response :=
       assemble NODE_ENV count_rejects_first
         (pool_query (fst (data_call q)) (snd (data_call q)))
         (pool_query (fst (count_call q)) (snd (count_call q)))
         (validated_page q) (validated_limit q)
         (query_start_date q) (query_end_date q);
     issued := [data_call q; count_call q] |}.
Proof.
  intros Hp [Hl Hu].
  unfold get_commits, data_call, count_call.
  fold (validated_page q). fold (validated_limit q).
  rewrite countQueryParams_empty.
  destruct (validated_page q <? 1) eqn:E1; [apply Z.ltb_lt in E1; lia|].
  destruct (validated_limit q <? 1) eqn:E2; [apply Z.ltb_lt in E2; lia|].
  destruct (validated_limit q >? 100) eqn:E3;
    [rewrite Z.gtb_ltb in E3; apply Z.ltb_lt in E3; lia|].
  reflexivity.
Qed.

(** A request that fails validation: a 400 and no call. *)
Lemma get_commits_rejected q :
  validated_page q < 1 \/ validated_limit q < 1 \/ 100 < validated_limit q ->
  exists e,
    handle q =
    {| response := {| status := 400; body := ErrorBody false e None |};
       issued := [] |}.
Proof.
  intros H.
  unfold get_commits.
  fold (validated_page q). fold (validated_limit q).
  destruct (validated_page q <? 1) eqn:E1; [eexists; reflexivity|].
  destruct (validated_limit q <? 1) eqn:E2; [eexists; reflexivity|].
  destruct (validated_limit q >? 100) eqn:E3; [eexists; reflexivity|].
  apply Z.ltb_ge in E1, E2.
  rewrite Z.gtb_ltb in E3. apply Z.ltb_ge in E3. lia.
Qed.

(** Every request either passes validation or is rejected. *)
Lemma validation_cases q :
  (1 <= validated_page q /\ 1 <= validated_limit q <= 100)
  \/ (validated_page q < 1 \/ validated_limit q < 1 \/ 100 < validated_limit q).
Proof. lia. Qed.

Lemma issued_cases q :
  issued (handle q) = [] \/ issued (handle q) = [data_call q; count_call q].
Proof.
  destruct (validation_cases q) as [[Hp Hl]|H].
  - right. rewrite get_commits_accepted by assumption. reflexivity.
  - left. destruct (get_commits_rejected q H) as [e ->]. reflexivity.
Qed.

(** [||] never yields 0: a parsed 0 is replaced like a missing value. *)
Lemma or_default_nonzero n d : d <> 0 -> JS.or_default n d <> 0.
Proof.
  intros Hd. destruct n as [|z]; simpl; [exact Hd|].
  destruct (z =? 0) eqn:E; [exact Hd|]. now apply Z.eqb_neq in E.
Qed.

(** [Math.ceil(a / b)] is the least [k] with [a <= b * k]. *)
Lemma ceil_div_spec a b :
  1 <= b -> b * (JS.ceil_div a b - 1) < a <= b * JS.ceil_div a b.
Proof.
  intros Hb. destruct b as [|p|p]; try lia.
  assert (E : JS.ceil_div a (Z.pos p) = - ((- a) / Z.pos p)).
  { unfold JS.ceil_div, Qceiling, Qfloor, Qdiv, Qinv, Qmult, Qopp, inject_Z.
    simpl. now rewrite Z.mul_1_r. }
  rewrite E.
  pose proof (Z.mul_div_le (- a) (Z.pos p) ltac:(lia)).
  pose proof (Z.mul_succ_div_gt (- a) (Z.pos p) ltac:(lia)).
  nia.
Qed.


Lemma assemble_status a b p l s e :
  status (assemble NODE_ENV count_rejects_first a b p l s e) = 200
  \/ status (assemble NODE_ENV count_rejects_first a b p l s e) = 500.
Proof.
  destruct a as [rows|m]; destruct b as [[|r rs]|m'];
    simpl; auto.
Qed.

(** A parsed value of 0 falls back to the default, like a missing one. *)
Lemma zero_is_defaulted v d :
  JS.parseInt v = JS.Int 0 -> JS.or_default (JS.parseInt v) d = d.
Proof. intros ->. reflexivity. Qed.

(** Negative values do reach the validation and are rejected by it. *)
Lemma negative_page_rejected q z :
  JS.parseInt (query_page q) = JS.Int z -> z < 0 ->
  status (response (handle q)) = 400 /\ issued (handle q) = [].
Proof.
  intros Hz Hneg.
  destruct (get_commits_rejected q) as [e ->]; [|split; reflexivity].
  left. unfold validated_page. rewrite Hz. simpl.
  destruct (z =? 0) eqn:E; [apply Z.eqb_eq in E|]; lia.
Qed.

(** C2 (the code departs from the claim): [page=0] and [limit=0] are not
    rejected.  [parseInt] gives 0, which [||] replaces by the default, so
    the request is handled exactly like one without the parameter: both
    statements are sent to the store and the status is not 400. *)
Theorem zero_page_or_limit_not_rejected :
  handle (set_page (Some "0") bare) = handle bare
  /\ handle (set_limit (Some "0") bare) = handle bare
  /\ issued (handle (set_page (Some "0") bare))
     = [data_call bare; count_call bare]
  /\ issued (handle (set_limit (Some "0") bare))
     = [data_call bare; count_call bare]
  /\ status (response (handle (set_page (Some "0") bare))) <> 400
  /\ status (response (handle (set_limit (Some "0") bare))) <> 400.
Proof.
  assert (Hp : handle (set_page (Some "0") bare) = handle bare)
    by reflexivity.
  assert (Hl : handle (set_limit (Some "0") bare) = handle bare)
    by reflexivity.
  rewrite Hp, Hl.
  assert (Hb : handle bare =
               {| response :=
                    assemble NODE_ENV count_rejects_first
                      (pool_query (fst (data_call bare)) (snd (data_call bare)))
                      (pool_query (fst (count_call bare)) (snd (count_call bare)))
                      1 10 None None;
                  issued := [data_call bare; count_call bare] |})
    by reflexivity.
  rewrite Hb. simpl issued. simpl response.
  repeat split;
    match goal with
    | |- status (assemble ?e ?f ?a ?b ?p ?l ?s ?t) <> 400 =>
        destruct (assemble_status a b p l s t) as [E|E]; rewrite E; lia
    end.
Qed.


(** C6: when [page] or [limit] is absent or does not parse, the request
    is handled exactly as if [page=1], respectively [limit=10], had been
    written; and a default never causes a rejection: a 400 is always due
    to a parameter that did parse, to a negative number or to a limit
    above 100. *)
Theorem unparsable_parameters_default q :
  JS.parseInt (query_page q) = JS.NaN \/ JS.parseInt (query_limit q) = JS.NaN ->
  handle q = handle (with_defaults q)
  /\ (JS.parseInt (query_page q) = JS.NaN -> validated_page q = 1)
  /\ (JS.parseInt (query_limit q) = JS.NaN -> validated_limit q = 10)
  /\ (status (response (handle q)) = 400 ->
      (exists z, JS.parseInt (query_page q) = JS.Int z /\ z < 0)
      \/ (exists z, JS.parseInt (query_limit q) = JS.Int z
                    /\ (z < 0 \/ 100 < z)))
  /\ (JS.parseInt (query_page q) = JS.NaN ->
      JS.parseInt (query_limit q) = JS.NaN ->
      issued (handle q) = [data_call q; count_call q]).
Proof.
  intros _.
  assert (Ep : JS.parseInt (query_page (with_defaults q)) = JS.Int 1
               /\ JS.parseInt (query_page q) = JS.NaN
               \/ query_page (with_defaults q) = query_page q).
  { unfold with_defaults. simpl.
    destruct (JS.parseInt (query_page q)); [left; split|right]; reflexivity. }
  assert (El : JS.parseInt (query_limit (with_defaults q)) = JS.Int 10
               /\ JS.parseInt (query_limit q) = JS.NaN
               \/ query_limit (with_defaults q) = query_limit q).
  { unfold with_defaults. simpl.
    destruct (JS.parseInt (query_limit q)); [left; split|right]; reflexivity. }
  assert (Vp : validated_page (with_defaults q) = validated_page q).
  { unfold validated_page.
    destruct Ep as [[-> ->]| ->]; reflexivity. }
  assert (Vl : validated_limit (with_defaults q) = validated_limit q).
  { unfold validated_limit.
    destruct El as [[-> ->]| ->]; reflexivity. }
  split; [|split; [|split; [|split]]].
  - unfold get_commits.
    fold (validated_page q) (validated_limit q).
    fold (validated_page (with_defaults q)) (validated_limit (with_defaults q)).
    rewrite Vp, Vl. reflexivity.
  - unfold validated_page. intros ->. reflexivity.
  - unfold validated_limit. intros ->. reflexivity.
  - intros H400.
    destruct (validation_cases q) as [[Hp Hl]|Hr].
    { rewrite (get_commits_accepted q Hp Hl) in H400. cbn [response] in H400.
      match type of H400 with
      | status (assemble ?e ?f ?a ?b ?p ?l ?s ?t) = _ =>
          destruct (assemble_status a b p l s t) as [E|E];
            rewrite E in H400; discriminate H400
      end. }
    unfold validated_page, validated_limit in Hr.
    destruct (JS.parseInt (query_page q)) as [|zp] eqn:Pp;
      destruct (JS.parseInt (query_limit q)) as [|zl] eqn:Pl;
      simpl in Hr;
      try destruct (zp =? 0) eqn:Zp; try destruct (zl =? 0) eqn:Zl;
      try apply Z.eqb_neq in Zp; try apply Z.eqb_neq in Zl;
      try lia.
    all: try (assert (zp < 0 \/ zl < 0 \/ 100 < zl) as [?|?] by lia;
              [left; exists zp; split; [reflexivity|lia]
              |right; exists zl; split; [reflexivity|lia]]).
    all: try (left; exists zp; split; [reflexivity|lia]).
    all: try (right; exists zl; split; [reflexivity|lia]).
  - intros Hp Hl. rewrite get_commits_accepted; [reflexivity| |].
    + unfold validated_page. rewrite Hp. simpl. lia.
    + unfold validated_limit. rewrite Hl. simpl. lia.
Qed.

(** The body of the [catch] block never carries more than the two fixed
    fields and, in development only, the message. *)
Lemma server_error_shape m :
  exists msg,
    server_error NODE_ENV m
    = {| status := 500; body := ErrorBody false "Internal server error" msg |}
    /\ (NODE_ENV <> Some "development" -> msg = None)
    /\ (NODE_ENV = Some "development" -> msg = Some m).
Proof.
  unfold server_error, JS.strict_equals.
  destruct NODE_ENV as [e|].
  - destruct (String.eqb_spec e "development") as [->|Hd].
    + exists (Some m). split; [reflexivity|].
      split; [intros H; now elim H|reflexivity].
    + exists None. split; [reflexivity|].
      split; [reflexivity|intros [= ->]; now elim Hd].
  - exists None. split; [reflexivity|]. split; [reflexivity|discriminate].
Qed.

(** C7: when a call to the store is rejected, the handler answers 500
    with [success: false] and the error text "Internal server error"; the
    [message] field is present in development only (so never in
    production); the body has neither [data] nor [pagination]. *)
Theorem backend_failure_gives_500 q c m :
  In c (issued (handle q)) ->
  pool_query (fst c) (snd c) = Rejected m ->
  exists msg,
    response (handle q)
    = {| status := 500; body := ErrorBody false "Internal server error" msg |}
    /\ (NODE_ENV <> Some "development" -> msg = None)
    /\ (NODE_ENV = Some "production" -> msg = None)
    /\ body_success (body (response (handle q))) = Some false
    /\ body_data (body (response (handle q))) = None
    /\ body_pagination (body (response (handle q))) = None.
Proof.
  intros Hin Hrej.
  destruct (validation_cases q) as [[Hp Hl]|Hr].
  2:{ destruct (get_commits_rejected q Hr) as [e E].
      rewrite E in Hin. destruct Hin. }
  rewrite (get_commits_accepted q Hp Hl) in *.
  cbn [response issued] in *.
  assert (Hm : exists m',
             assemble NODE_ENV count_rejects_first
               (pool_query (fst (data_call q)) (snd (data_call q)))
               (pool_query (fst (count_call q)) (snd (count_call q)))
               (validated_page q) (validated_limit q)
               (query_start_date q) (query_end_date q)
             = server_error NODE_ENV m').
  { destruct Hin as [<-|[<-|[]]]; rewrite Hrej; unfold assemble.
    - destruct (pool_query (fst (count_call q)) (snd (count_call q)))
        as [rows|m1]; eexists; reflexivity.
    - destruct (pool_query (fst (data_call q)) (snd (data_call q)))
        as [rows|m1]; eexists; reflexivity. }
  destruct Hm as [m' ->].
  destruct (server_error_shape m') as (msg & -> & Hdev & _).
  exists msg. cbn [body body_success body_data body_pagination].
  repeat split; try assumption.
  intros Hprod. apply Hdev. rewrite Hprod. discriminate.
Qed.

(** No value is ever bound: both calls pass the empty array. *)
Lemma values_never_bound q c : In c (issued (handle q)) -> snd c = [].
Proof.
  destruct (issued_cases q) as [-> | ->]; [intros []|].
  intros [<-|[<-|[]]]; reflexivity.
Qed.

(** A date of the request is part of the text of the WHERE clause. *)
Lemma date_spliced s e :
  (JS.truthy s = true ->
   exists a b, whereClause s e = a ++ JS.ToString s ++ b)
  /\ (JS.truthy e = true ->
      exists a b, whereClause s e = a ++ JS.ToString e ++ b).
Proof.
  unfold whereClause.
  split; intros ->; destruct (JS.truthy _); cbn [andb].
  - now exists "WHERE created_at BETWEEN '",
      ("'::timestamptz AND '" ++ JS.ToString e ++ "'::timestamptz").
  - now exists "WHERE created_at >= '", "'::timestamptz".
  - exists ("WHERE created_at BETWEEN '" ++ JS.ToString s
            ++ "'::timestamptz AND '"), "'::timestamptz".
    now rewrite !append_assoc.
  - now exists "WHERE created_at <= '", "'::timestamptz".
Qed.

(** The [filters] object of a successful response. *)
Lemma echoed_filters q f :
  body_filters (body (response (handle q))) = Some f ->
  f = {| startDate := JS.or_null (query_start_date q);
         endDate := JS.or_null (query_end_date q) |}.
Proof.
  intros H.
  destruct (validation_cases q) as [[Hp Hl]|Hr].
  2:{ destruct (get_commits_rejected q Hr) as [e E].
      rewrite E in H. discriminate H. }
  rewrite (get_commits_accepted q Hp Hl) in H. cbn [response] in H.
  unfold assemble, server_error in H.
  destruct (pool_query (fst (data_call q)) (snd (data_call q)))
    as [rows|m];
    destruct (pool_query (fst (count_call q)) (snd (count_call q)))
      as [[|row0 rest]|m']; try discriminate H.
  now injection H as <-.
Qed.

Lemma or_null_nonempty v s : v = Some s -> s <> "" -> JS.or_null v = Some s.
Proof.
  intros -> Hs. unfold JS.or_null, JS.truthy.
  destruct (String.eqb_spec s "") as [E|_]; [now elim Hs|reflexivity].
Qed.

Lemma or_null_empty v : v = None \/ v = Some "" -> JS.or_null v = None.
Proof. intros [->| ->]; reflexivity. Qed.

(** C8, as amended: in a successful response the [filters] object carries
    each date as the caller wrote it, and [null] in place of a date that is
    absent or empty -- whatever rows the store returned. *)
Theorem filters_echo q f :
  body_filters (body (response (handle q))) = Some f ->
  (forall s, query_start_date q = Some s -> s <> "" -> startDate f = Some s)
  /\ (query_start_date q = None \/ query_start_date q = Some "" ->
      startDate f = None)
  /\ (forall s, query_end_date q = Some s -> s <> "" -> endDate f = Some s)
  /\ (query_end_date q = None \/ query_end_date q = Some "" ->
      endDate f = None).
Proof.
  intros H. rewrite (echoed_filters q f H). cbn [startDate endDate].
  repeat split; auto using or_null_nonempty, or_null_empty.
Qed.

(** C10: an empty [start_date] or [end_date] is handled exactly like an
    absent one -- the same statements are sent, the same response comes
    back -- so it adds no condition to either WHERE clause and is echoed
    as [null]. *)
Theorem empty_date_is_absent q :
  (query_start_date q = Some "" -> handle q = handle (set_start_date None q))
  /\ (query_end_date q = Some "" -> handle q = handle (set_end_date None q))
  /\ (query_start_date q = Some "" ->
      whereClause (query_start_date q) (query_end_date q)
      = whereClause None (query_end_date q))
  /\ (query_end_date q = Some "" ->
      whereClause (query_start_date q) (query_end_date q)
      = whereClause (query_start_date q) None)
  /\ (query_start_date q = Some "" -> query_end_date q = Some "" ->
      whereClause (query_start_date q) (query_end_date q) = "")
  /\ (forall f, body_filters (body (response (handle q))) = Some f ->
      (query_start_date q = Some "" -> startDate f = None)
      /\ (query_end_date q = Some "" -> endDate f = None)).
Proof.
  destruct q as [p l s e]. cbn [query_start_date query_end_date].
  split; [|split; [|split; [|split; [|split]]]].
  - intros ->. reflexivity.
  - intros ->. unfold get_commits, set_end_date, whereClause, assemble.
    cbn [query_page query_limit query_start_date query_end_date].
    destruct s as [s|]; [|reflexivity].
    unfold JS.or_null, JS.truthy.
    destruct (s =? "")%string; reflexivity.
  - intros ->. reflexivity.
  - intros ->. unfold whereClause.
    destruct (JS.truthy s); reflexivity.
  - intros -> ->. reflexivity.
  - intros f Hf. rewrite (echoed_filters _ f Hf).
    cbn [query_start_date query_end_date startDate endDate].
    split; intros ->; reflexivity.
Qed.

End AnyStore.

(** C9: [GET /health] answers 200 with [{status: "ok"}] for every
    request; the handler makes no call to the store and does not depend on
    it. *)
Theorem health_always_ok (q : Query) :
  get_health q
  = {| response := {| status := 200; body := HealthBody "ok" |};
       issued := [] |}.
Proof. reflexivity. Qed.

(** ** The store on the statements of the handler *)


(** *** Decimal numerals *)

Lemma uint_value_pos d : forall p,
  uint_value (Z.pos p) d = Z.pos (Pos.of_uint_acc d p).
Proof.
  induction d as [|d IH|d IH|d IH|d IH|d IH|d IH|d IH|d IH|d IH|d IH];
    intros p; cbn [uint_value Pos.of_uint_acc]; [reflexivity|..];
    rewrite <- IH; f_equal; lia.
Qed.

Lemma uint_value_zero d : uint_value 0 d = Z.of_N (Pos.of_uint d).
Proof.
  induction d as [|d IH|d IH|d IH|d IH|d IH|d IH|d IH|d IH|d IH|d IH];
    cbn [uint_value Pos.of_uint]; [reflexivity|exact IH|..];
    apply (uint_value_pos d).
Qed.

Lemma uint_value_to_uint p : uint_value 0 (Pos.to_uint p) = Z.pos p.
Proof.
  rewrite uint_value_zero, DecimalPos.Unsigned.of_to. reflexivity.
Qed.

(** The digits of a positive number are the digit string of
    [Pos.to_uint]. *)
Lemma decimal_pos p :
  JS.decimal (Z.pos p) = NilEmpty.string_of_uint (Pos.to_uint p).
Proof.
  unfold JS.decimal. cbn [Z.to_int NilZero.string_of_int].
  unfold NilZero.string_of_uint.
  pose proof (DecimalPos.Unsigned.to_uint_nonnil p) as H.
  destruct (Pos.to_uint p); [now elim H|reflexivity..].
Qed.

(** *** Numbers below 2^53 *)

Lemma safe_below_infinity : JS.safe_bound < JS.infinity.
Proof. vm_compute. reflexivity. Qed.

Lemma to_double_safe z : Z.abs z < JS.safe_bound -> JS.to_double z = z.
Proof.
  intros H. unfold JS.to_double.
  destruct (Z.abs z <? JS.safe_bound) eqn:E; [reflexivity|].
  apply Z.ltb_ge in E. lia.
Qed.

Lemma number_to_string_safe z :
  Z.abs z < JS.safe_bound -> JS.number_to_string z = JS.decimal z.
Proof.
  intros H. unfold JS.number_to_string.
  destruct (Z.abs z <? JS.safe_bound) eqn:E; [reflexivity|].
  apply Z.ltb_ge in E. lia.
Qed.

(** The product of two numbers of the handler is exact when it stays
    below 2^53. *)
Lemma mul_safe a b :
  1 <= b < JS.safe_bound -> 0 <= a * b < JS.safe_bound ->
  JS.mul a b = JS.Int (a * b).
Proof.
  intros Hb Hab. unfold JS.mul.
  pose proof safe_below_infinity as Hinf.
  assert (Ha' : Z.abs a < JS.safe_bound) by nia.
  destruct (b =? 0) eqn:Eb; [apply Z.eqb_eq in Eb; lia|].
  destruct (JS.infinity <=? Z.abs b) eqn:E1; [apply Z.leb_le in E1; lia|].
  rewrite andb_false_r. cbn [orb andb].
  rewrite to_double_safe by lia. reflexivity.
Qed.

(** What [parseInt] needs to know about a decimal digit. *)
Lemma digit_char_facts c :
  Pg.is_digit c = true ->
  JS.is_space c = false
  /\ (c =? "-")%char = false /\ (c =? "+")%char = false
  /\ (c =? "x")%char = false /\ (c =? "X")%char = false
  /\ JS.digit_of 10 c = Some (Pg.code c - 48).
Proof.
  destruct c as [[|] [|] [|] [|] [|] [|] [|] [|]];
    intros H; try discriminate H; repeat split; reflexivity.
Qed.

(** No white space starts with a decimal digit. *)
Lemma trim_start_digit c r :
  Pg.is_digit c = true -> JS.trim_start (String c r) = String c r.
Proof.
  intros H. cbn [JS.trim_start].
  assert (E : JS.is_space c = false
              /\ (forall b, JS.is_space2 c b = false)
              /\ (forall b d, JS.is_space3 c b d = false)).
  { destruct c as [[|] [|] [|] [|] [|] [|] [|] [|]];
      try discriminate H; repeat split. }
  destruct E as (-> & E2 & E3).
  destruct r as [|b r]; [reflexivity|]. rewrite E2.
  destruct r as [|d r]; [reflexivity|]. now rewrite E3.
Qed.

Lemma digits_value_uint d : forall a,
  JS.digits_value 10 (Some a) (NilEmpty.string_of_uint d)
  = Some (uint_value a d).
Proof.
  induction d as [|d IH|d IH|d IH|d IH|d IH|d IH|d IH|d IH|d IH|d IH];
    intros a; cbn [NilEmpty.string_of_uint JS.digits_value uint_value];
    [reflexivity|..];
    match goal with
    | |- context [JS.digit_of 10 ?c] =>
        rewrite (proj2 (proj2 (proj2 (proj2 (proj2
                   (digit_char_facts c eq_refl))))))
    end; apply IH.
Qed.

(** [parseInt] on a run of digits that is followed by nothing. *)
Lemma parseInt_uint d :
  d <> Nil ->
  JS.parseInt_string (NilEmpty.string_of_uint d)
  = JS.Int (JS.to_double (uint_value 0 d)).
Proof.
  intros Hd.
  assert (H : exists c d', NilEmpty.string_of_uint d
                            = String c (NilEmpty.string_of_uint d')
                            /\ Pg.is_digit c = true
                            /\ uint_value 0 d = uint_value (Pg.code c - 48) d').
  { destruct d as [|d|d|d|d|d|d|d|d|d|d]; [now elim Hd|..];
      eexists; exists d; (split; [reflexivity|split; reflexivity]). }
  destruct H as (c & d' & -> & Hc & ->).
  destruct (digit_char_facts c Hc) as (Hsp & Hm & Hp & _ & _ & Hv).
  unfold JS.parseInt_string. rewrite (trim_start_digit c _ Hc).
  rewrite Hm, Hp.
  assert (Hr : match NilEmpty.string_of_uint d' with
               | String c1 r =>
                   if ((c =? "0") && ((c1 =? "x") || (c1 =? "X")))%char
                   then (16, r)
                   else (10, String c (NilEmpty.string_of_uint d'))
               | EmptyString => (10, String c (NilEmpty.string_of_uint d'))
               end = (10, String c (NilEmpty.string_of_uint d'))).
  { destruct d'; cbn [NilEmpty.string_of_uint]; try reflexivity;
      now rewrite andb_false_r. }
  cbv zeta.
  change (match String c (NilEmpty.string_of_uint d') with
          | String c0 (String c1 r) =>
              if ((c0 =? "0") && ((c1 =? "x") || (c1 =? "X")))%char
              then (16, r)
              else (10, String c (NilEmpty.string_of_uint d'))
          | _ => (10, String c (NilEmpty.string_of_uint d'))
          end)
    with (match NilEmpty.string_of_uint d' with
          | String c1 r =>
              if ((c =? "0") && ((c1 =? "x") || (c1 =? "X")))%char
              then (16, r)
              else (10, String c (NilEmpty.string_of_uint d'))
          | EmptyString => (10, String c (NilEmpty.string_of_uint d'))
          end).
  rewrite Hr. cbn [JS.digits_value]. rewrite Hv.
  rewrite digits_value_uint. reflexivity.
Qed.

(** [parseInt] reads the digits of a number as the double nearest to it. *)
Lemma parseInt_decimal n :
  0 <= n -> JS.parseInt (Some (JS.decimal n)) = JS.Int (JS.to_double n).
Proof.
  intros Hn. destruct n as [|p|p]; [reflexivity| |lia].
  unfold JS.parseInt, JS.ToString.
  rewrite decimal_pos, parseInt_uint, uint_value_to_uint.
  - reflexivity.
  - apply DecimalPos.Unsigned.to_uint_nonnil.
Qed.

(** Below 2^53 the number is read back as it is. *)
Lemma parseInt_number n :
  0 <= n < JS.safe_bound -> JS.parseInt (Some (JS.decimal n)) = JS.Int n.
Proof.
  intros Hn. rewrite parseInt_decimal, to_double_safe by lia. reflexivity.
Qed.

Module PgFacts.
Import Pg.

Lemma lex_run_app st a b :
  lex_run st (a ++ b)
  = match lex_run st a with
    | Some st' => lex_run st' b
    | None => None
    end.
Proof.
  revert st. induction a as [|c a IH]; intros st; simpl; [reflexivity|].
  destruct (step st c); [apply IH|reflexivity].
Qed.

Lemma step_digit n toks c :
  is_digit c = true ->
  step (InNum n, toks) c = Some (InNum (10 * n + (code c - 48)), toks).
Proof. intros H. unfold step. now rewrite H. Qed.

Lemma lex_digits d : forall n toks,
  lex_run (InNum n, toks) (NilEmpty.string_of_uint d)
  = Some (InNum (uint_value n d), toks).
Proof.
  induction d as [|d IH|d IH|d IH|d IH|d IH|d IH|d IH|d IH|d IH|d IH];
    intros n toks; cbn [NilEmpty.string_of_uint lex_run uint_value];
    [reflexivity|..];
    rewrite step_digit by reflexivity; apply IH.
Qed.

Lemma digit_starts_number c toks :
  is_digit c = true ->
  step (Idle, toks) c = Some (InNum (code c - 48), toks).
Proof.
  destruct c as [[|] [|] [|] [|] [|] [|] [|] [|]];
    intros H; try discriminate H; reflexivity.
Qed.

(** A numeral is read back as the number it was printed from. *)
Lemma lex_number n toks :
  0 <= n ->
  lex_run (Idle, toks) (JS.decimal n) = Some (InNum n, toks).
Proof.
  intros Hn. destruct n as [|p|p]; [reflexivity| |lia].
  rewrite decimal_pos, <- (uint_value_to_uint p).
  pose proof (DecimalPos.Unsigned.to_uint_nonnil p) as H.
  destruct (Pos.to_uint p); [now elim H|..];
    cbn [NilEmpty.string_of_uint lex_run uint_value];
    rewrite digit_starts_number by reflexivity;
    apply lex_digits.
Qed.

Lemma lex_literal x : forall acc toks,
  quote_free x = true ->
  lex_run (InLit acc, toks) x = Some (InLit (acc ++ x), toks).
Proof.
  induction x as [|c x IH]; intros acc toks H.
  - now rewrite append_empty_r.
  - cbn [quote_free] in H. apply andb_true_iff in H as [Hc Hx].
    cbn [lex_run step]. apply negb_true_iff in Hc. rewrite Hc.
    rewrite (IH _ _ Hx). unfold snoc. now rewrite append_assoc.
Qed.

(** Reading one more piece of a text: a date inside a literal, a numeral,
    or text that is known. *)
Ltac lex_piece :=
  rewrite lex_run_app;
  first
    [ rewrite lex_literal by assumption
    | rewrite lex_number by assumption
    | match goal with
      | |- context [lex_run ?st ?a] =>
          let r := eval vm_compute in (lex_run st a) in
          change (lex_run st a) with r
      end ];
  cbv beta iota.

(** The data statement is read as intended when the dates hold no quote. *)
Lemma read_data_statement s e p l :
  plain s = true -> plain e = true ->
  1 <= l < JS.safe_bound -> 0 <= p * l < JS.safe_bound ->
  read_statement (query_text (whereClause s e) p l)
  = Some (SelectAll (where_cond s e) true (Some l) (Some (p * l))).
Proof.
  unfold plain. intros Hs He Hl1 Hf2.
  assert (Hl : 0 <= l) by lia.
  assert (Hf : 0 <= p * l) by lia.
  unfold read_statement, lex, query_text, whereClause, where_cond.
  rewrite (mul_safe p l Hl1 Hf2). cbn [JS.num_to_string].
  rewrite (number_to_string_safe l) by lia.
  rewrite (number_to_string_safe (p * l)) by lia.
  remember (p * l) as f eqn:Ef. clear Ef Hf2.
  remember (JS.ToString s) as x eqn:Ex. clear Ex.
  remember (JS.ToString e) as y eqn:Ey. clear Ey.
  destruct (JS.truthy s), (JS.truthy e); cbn [andb];
    rewrite ?append_assoc; repeat lex_piece; reflexivity.
Qed.

(** So is the count statement. *)
Lemma read_count_statement s e :
  plain s = true -> plain e = true ->
  read_statement (countQuery_text (whereClause s e))
  = Some (SelectCount "total" (where_cond s e)).
Proof.
  unfold plain. intros Hs He.
  unfold read_statement, lex, countQuery_text, whereClause, where_cond.
  remember (JS.ToString s) as x eqn:Ex. clear Ex.
  remember (JS.ToString e) as y eqn:Ey. clear Ey.
  destruct (JS.truthy s), (JS.truthy e); cbn [andb];
    rewrite ?append_assoc; repeat lex_piece; reflexivity.
Qed.

End PgFacts.

(** *** Ordering *)

Lemma insert_perm c l : Permutation (c :: l) (Pg.insert c l).
Proof.
  induction l as [|d l IH]; simpl; [reflexivity|].
  destruct (Pg.created_at c <=? Pg.created_at d); [reflexivity|].
  rewrite perm_swap. now apply perm_skip.
Qed.

Lemma sort_perm l : Permutation l (Pg.sort l).
Proof.
  induction l as [|c l IH]; simpl; [reflexivity|].
  rewrite <- insert_perm. now apply perm_skip.
Qed.




Lemma in_firstn {A : Type} n (l : list A) x : In x (firstn n l) -> In x l.
Proof.
  intros H. rewrite <- (firstn_skipn n l). apply in_or_app. now left.
Qed.


(** [drop] and [take] are [skipn] and [firstn]. *)
Lemma drop_skipn l : forall k, 0 <= k -> Pg.drop k l = skipn (Z.to_nat k) l.
Proof.
  induction l as [|c l IH]; intros k Hk; cbn [Pg.drop].
  - now rewrite skipn_nil.
  - destruct (k <=? 0) eqn:E.
    + apply Z.leb_le in E. now replace k with 0 by lia.
    + apply Z.leb_gt in E.
      replace (Z.to_nat k) with (S (Z.to_nat (k - 1))) by lia.
      cbn [skipn]. apply IH. lia.
Qed.

Lemma take_firstn l : forall k, 0 <= k -> Pg.take k l = firstn (Z.to_nat k) l.
Proof.
  induction l as [|c l IH]; intros k Hk; cbn [Pg.take].
  - now rewrite firstn_nil.
  - destruct (k <=? 0) eqn:E.
    + apply Z.leb_le in E. now replace k with 0 by lia.
    + apply Z.leb_gt in E.
      replace (Z.to_nat k) with (S (Z.to_nat (k - 1))) by lia.
      cbn [firstn]. f_equal. apply IH. lia.
Qed.

(** *** The answers of the store *)

Section StoreFacts.

Variable timestamptz_in : string -> option Z.
Variable table : list Pg.commit.

Lemma denotes_plain v o : denotes timestamptz_in v o -> plain v = true.
Proof.
  unfold denotes, plain, JS.or_null.
  destruct (JS.truthy v) eqn:T.
  - destruct v as [s|]; [|discriminate T].
    destruct o; [now intros [H _]|contradiction].
  - intros _. destruct v as [s|]; [|reflexivity].
    simpl in T. apply negb_false_iff, String.eqb_eq in T. now subst.
Qed.

Lemma denotes_truthy v o :
  denotes timestamptz_in v o ->
  (JS.truthy v = true /\ exists a, o = Some a
                                  /\ timestamptz_in (JS.ToString v) = Some a)
  \/ (JS.truthy v = false /\ o = None).
Proof.
  unfold denotes, JS.or_null.
  destruct (JS.truthy v) eqn:T.
  - destruct v as [s|]; [|discriminate T].
    destruct o as [a|]; [|contradiction].
    intros [_ H]. left. split; [reflexivity|]. exists a. now split.
  - destruct o; [contradiction|]. intros _. right. now split.
Qed.

Lemma matching_unbounded : matching None None table = table.
Proof.
  unfold matching. induction table as [|c l IH]; simpl; [reflexivity|].
  now rewrite IH.
Qed.

(** The WHERE clause keeps the rows the date filter allows. *)
Lemma select_where_matching s e lo hi :
  denotes timestamptz_in s lo -> denotes timestamptz_in e hi ->
  Pg.select_where timestamptz_in (where_cond s e) table
  = Pg.Selected (matching lo hi table).
Proof.
  intros Hs He. unfold where_cond, Pg.select_where.
  destruct (denotes_truthy _ _ Hs) as [(-> & a & -> & Ea)|(-> & ->)];
    destruct (denotes_truthy _ _ He) as [(-> & b & -> & Eb)|(-> & ->)];
    cbn [andb Pg.read_cond]; rewrite ?Ea, ?Eb; f_equal;
    try (now rewrite matching_unbounded);
    unfold matching; apply filter_ext; intros c;
    unfold in_range; cbn [Pg.sat];
    rewrite ?andb_true_r, ?andb_true_l; reflexivity.
Qed.

End StoreFacts.

(** *** The handler in front of the store *)

Section OnStore.

Variable timestamptz_in : string -> option Z.
Variable table : list Pg.commit.
Variable NODE_ENV : option string.
Variable count_rejects_first : bool.

#[local] Abbreviation store := (Pg.query timestamptz_in table).

Lemma query_read text st :
  read_statement text = Some st ->
  store text [] = Pg.run timestamptz_in st table.
Proof.
  unfold read_statement, Pg.query.
  destruct (Pg.lex text) as [ts|]; [|discriminate].
  intros ->. reflexivity.
Qed.

(** The rows the data statement delivers: [limit] rows of the matching
    rows in ascending order, after skipping [page * limit] of them. *)
Lemma data_call_answer q lo hi :
  1 <= validated_page q -> 1 <= validated_limit q <= 100 ->
  validated_page q * validated_limit q < JS.safe_bound ->
  denotes timestamptz_in (query_start_date q) lo ->
  denotes timestamptz_in (query_end_date q) hi ->
  store (fst (data_call q)) (snd (data_call q))
  = Rows (block (validated_page q * validated_limit q) (validated_limit q)
            (Pg.sort (matching lo hi table))).
Proof.
  intros Hp Hl Hb Hs He. unfold data_call. cbn [fst snd].
  assert (Hl0 : 1 <= validated_limit q < JS.safe_bound)
    by (unfold JS.safe_bound; lia).
  assert (Hf0 : 0 <= validated_page q * validated_limit q < JS.safe_bound)
    by nia.
  rewrite (query_read _ _
             (PgFacts.read_data_statement _ _ _ _
                (denotes_plain _ _ _ Hs) (denotes_plain _ _ _ He) Hl0 Hf0)).
  cbn [Pg.run]. rewrite (select_where_matching _ _ _ _ _ _ Hs He).
  unfold Pg.exceeds_bigint, Pg.is_negative, Pg.bigint_max.
  unfold JS.safe_bound in Hb.
  destruct (9223372036854775807 <? validated_limit q) eqn:E3;
    [apply Z.ltb_lt in E3; lia|].
  destruct (9223372036854775807 <? validated_page q * validated_limit q)
    eqn:E4; [apply Z.ltb_lt in E4; lia|].
  destruct (validated_limit q <? 0) eqn:E1; [apply Z.ltb_lt in E1; lia|].
  destruct (validated_page q * validated_limit q <? 0) eqn:E2;
    [apply Z.ltb_lt in E2; nia|].
  cbn [orb]. unfold Pg.window, block.
  rewrite drop_skipn, take_firstn by nia. reflexivity.
Qed.

(** The row the count statement delivers: the number of matching rows. *)
Lemma count_call_answer q lo hi :
  denotes timestamptz_in (query_start_date q) lo ->
  denotes timestamptz_in (query_end_date q) hi ->
  store (fst (count_call q)) (snd (count_call q))
  = Rows [[("total", JS.decimal (matching_count lo hi table))]].
Proof.
  intros Hs He. unfold count_call. cbn [fst snd].
  rewrite (query_read _ _
             (PgFacts.read_count_statement _ _
                (denotes_plain _ _ _ Hs) (denotes_plain _ _ _ He))).
  cbn [Pg.run]. rewrite (select_where_matching _ _ _ _ _ _ Hs He).
  reflexivity.
Qed.



End OnStore.

(** ** Worked examples on a table of 25 commits *)

(** C1 (the code departs from the claim): with 25 matching records and
    [limit=10], page 1 delivers the records numbered 11 to 20, not 1 to
    10, and page 3 delivers none, not the last 5: the statement skips
    [page * limit] rows where the claim has [(page - 1) * limit]. *)
Theorem pages_are_one_block_late :
  body_data (body (response (get_commits store25 None false (page_limit "1" "10"))))
  = Some (rows_from 11 10)
  /\ body_data (body (response (get_commits store25 None false (page_limit "3" "10"))))
     = Some []
  /\ body_pagination
       (body (response (get_commits store25 None false (page_limit "1" "10"))))
     = Some pagination25
  /\ rows_from 11 10 <> rows_from 1 10
  /\ List.length (rows_from 21 5) = 5%nat.
Proof.
  split; [vm_compute; reflexivity|].
  split; [vm_compute; reflexivity|].
  split; [vm_compute; reflexivity|].
  split; [vm_compute; discriminate|reflexivity].
Qed.

(** C3 (the code departs from the claim): the start date is spliced into
    the text of both statements and nothing is bound.  With the crafted
    date the literal ends early and the rest is read as SQL: the statement
    gets a second condition and the store delivers rows although no commit
    is dated 2025-01-01 or later; a date with a lone quote is a syntax
    error and yields a 500. *)
Theorem crafted_date_rewrites_statement :
  issued (get_commits store25 None false crafted_request)
  = [(query_text ("WHERE created_at >= '" ++ crafted_date ++ "'::timestamptz")
        1 10, []);
     (countQuery_text
        ("WHERE created_at >= '" ++ crafted_date ++ "'::timestamptz"), [])]
  /\ read_statement (fst (data_call crafted_request))
     = Some (Pg.SelectAll
               (Some (Pg.Or (Pg.AtLeast "2025-01-01") (Pg.AtMost "9999-12-31")))
               true (Some 10) (Some 10))
  /\ matching (Some 20250101) None table25 = []
  /\ body_data (body (response (get_commits store25 None false crafted_request)))
     = Some (rows_from 11 10)
  /\ status (response (get_commits store25 None false
                         (set_start_date (Some "2024-01-01'") bare)))
     = 500.
Proof.
  split; [vm_compute; reflexivity|].
  split; [vm_compute; reflexivity|].
  split; [vm_compute; reflexivity|].
  split; vm_compute; reflexivity.
Qed.


(** C8 as first stated fails: an empty [start_date] is a supplied value,
    and it comes back as [null]. *)
Lemma filters_echo_not_verbatim :
  ~ (forall pool_query NODE_ENV first q f,
       body_filters
         (body (response (get_commits pool_query NODE_ENV first q)))
       = Some f ->
       startDate f = query_start_date q /\ endDate f = query_end_date q).
Proof.
  intros H.
  destruct (H store25 None false empty_dates_request
              {| startDate := None; endDate := None |}) as [E _].
  - vm_compute. reflexivity.
  - discriminate E.
Qed.

(** *** The theorems at concrete requests *)



Lemma unparsable_parameters_default_witness :
  JS.parseInt (query_page (page_limit "abc" "20")) = JS.NaN
  /\ get_commits store25 None false (page_limit "abc" "20")
     = get_commits store25 None false (page_limit "1" "20")
  /\ validated_page (page_limit "abc" "20") = 1.
Proof.
  assert (H : JS.parseInt (query_page (page_limit "abc" "20")) = JS.NaN)
    by reflexivity.
  split; [exact H|].
  destruct (unparsable_parameters_default store25 None false
              (page_limit "abc" "20") (or_introl H))
    as (E & Hp & _).
  split; [exact E|exact (Hp H)].
Defined.

Lemma backend_failure_gives_500_witness :
  In (data_call bare) (issued (get_commits unreachable (Some "production") false bare))
  /\ unreachable (fst (data_call bare)) (snd (data_call bare))
     = Rejected "connect ECONNREFUSED"
  /\ response (get_commits unreachable (Some "production") false bare)
     = {| status := 500;
          body := ErrorBody false "Internal server error" None |}.
Proof.
  assert (Hin : In (data_call bare)
                  (issued (get_commits unreachable (Some "production") false bare)))
    by (left; reflexivity).
  assert (Hrej : unreachable (fst (data_call bare)) (snd (data_call bare))
                 = Rejected "connect ECONNREFUSED") by reflexivity.
  split; [exact Hin|]. split; [exact Hrej|].
  destruct (backend_failure_gives_500 unreachable (Some "production") false
              bare _ _ Hin Hrej)
    as (msg & E & _ & Hprod & _).
  rewrite E. now rewrite (Hprod eq_refl).
Defined.

Lemma filters_echo_witness :
  body_filters (body (response (get_commits store25 None false january_request)))
  = Some {| startDate := Some "2024-01-05"; endDate := Some "2024-01-20" |}
  /\ startDate {| startDate := Some "2024-01-05";
                  endDate := Some "2024-01-20" |}
     = Some "2024-01-05".
Proof.
  assert (H : body_filters
                (body (response (get_commits store25 None false january_request)))
              = Some {| startDate := Some "2024-01-05";
                        endDate := Some "2024-01-20" |})
    by (vm_compute; reflexivity).
  split; [exact H|].
  destruct (filters_echo store25 None false _ _ H) as (Hs & _).
  apply Hs; [reflexivity|discriminate].
Defined.

Lemma empty_date_is_absent_witness :
  query_start_date empty_dates_request = Some ""
  /\ get_commits store25 None false empty_dates_request
     = get_commits store25 None false (set_start_date None empty_dates_request).
Proof.
  split; [reflexivity|].
  destruct (empty_date_is_absent store25 None false empty_dates_request)
    as (Hs & _).
  apply Hs. reflexivity.
Defined.

(** ** Further properties of the commits handler *)

Section Validation.

Variable pool_query : string -> list string -> QResult.
Variable NODE_ENV : option string.
Variable count_rejects_first : bool.

#[local] Abbreviation handle :=
  (get_commits pool_query NODE_ENV count_rejects_first).

Lemma negative_is_kept z d : z < 0 -> JS.or_default (JS.Int z) d = z.
Proof.
  intros Hz. cbn [JS.or_default].
  destruct (z =? 0) eqn:E; [apply Z.eqb_eq in E; lia|reflexivity].
Qed.

(** X1: a [page] or a [limit] that parses to a negative number is
    answered 400 with the text of lines 48-53, whatever the other
    parameters are, and no statement is sent. *)
Theorem negative_parameter_rejected q z :
  JS.parseInt (query_page q) = JS.Int z \/ JS.parseInt (query_limit q) = JS.Int z ->
  z < 0 ->
  handle q = invalid_pagination.
Proof.
  intros H Hz. unfold get_commits.
  fold (validated_page q) (validated_limit q).
  assert (C : (validated_page q <? 1) || (validated_limit q <? 1) = true).
  { apply orb_true_iff.
    destruct H as [H|H]; [left; unfold validated_page
                         |right; unfold validated_limit];
      rewrite H, (negative_is_kept z _ Hz); apply Z.ltb_lt; lia. }
  rewrite C. reflexivity.
Qed.

(** X2: a [limit] that parses to more than 100, with a [page] that is not
    negative, is answered 400 with the text of lines 55-60, and no
    statement is sent. *)
Theorem oversized_limit_rejected q z :
  JS.parseInt (query_limit q) = JS.Int z -> 100 < z ->
  1 <= validated_page q ->
  handle q = limit_too_large.
Proof.
  intros H Hz Hp. unfold get_commits.
  fold (validated_page q) (validated_limit q).
  assert (El : validated_limit q = z).
  { unfold validated_limit. rewrite H. cbn [JS.or_default].
    destruct (z =? 0) eqn:E; [apply Z.eqb_eq in E; lia|reflexivity]. }
  rewrite El.
  destruct (validated_page q <? 1) eqn:E1; [apply Z.ltb_lt in E1; lia|].
  destruct (z <? 1) eqn:E2; [apply Z.ltb_lt in E2; lia|].
  destruct (z >? 100) eqn:E3; [reflexivity|].
  rewrite Z.gtb_ltb in E3. apply Z.ltb_ge in E3. lia.
Qed.

(** The response to a request that passes validation, by the answers of
    the store. *)
Lemma accepted_response q :
  1 <= validated_page q -> 1 <= validated_limit q <= 100 ->
  response (handle q)
  = assemble NODE_ENV count_rejects_first
      (pool_query (fst (data_call q)) (snd (data_call q)))
      (pool_query (fst (count_call q)) (snd (count_call q)))
      (validated_page q) (validated_limit q)
      (query_start_date q) (query_end_date q)
  /\ issued (handle q) = [data_call q; count_call q].
Proof.
  intros Hp Hl. rewrite (get_commits_accepted pool_query NODE_ENV count_rejects_first q Hp Hl). now split.
Qed.

(** X3: the status is 200, 400 or 500.  No statement is sent exactly when
    it is 400; otherwise both are sent, the data statement first.
    [success] is true, and the body has a [data] field, exactly when it
    is 200. *)
Theorem status_and_calls q :
  (status (response (handle q)) = 200
   \/ status (response (handle q)) = 400
   \/ status (response (handle q)) = 500)
  /\ (issued (handle q) = [] <-> status (response (handle q)) = 400)
  /\ (status (response (handle q)) <> 400 ->
      issued (handle q) = [data_call q; count_call q])
  /\ (body_success (body (response (handle q))) = Some true
      <-> status (response (handle q)) = 200)
  /\ (body_data (body (response (handle q))) <> None
      <-> status (response (handle q)) = 200).
Proof.
  destruct (validation_cases q) as [[Hp Hl]|Hr].
  - destruct (accepted_response q Hp Hl) as [-> ->].
    unfold assemble, server_error.
    destruct (pool_query (fst (data_call q)) (snd (data_call q)))
      as [rows|m];
      destruct (pool_query (fst (count_call q)) (snd (count_call q)))
        as [[|row0 rest]|m'];
      cbn [status body body_success body_data];
      (split; [auto|]); (split; [split; discriminate|]);
      (split; [reflexivity|]);
      split; split; try discriminate; try reflexivity;
      intros H; try discriminate H; now elim H.
  - destruct (get_commits_rejected pool_query NODE_ENV count_rejects_first q Hr) as [e ->].
    cbn [response issued status body body_success body_data].
    split; [auto|]. split; [split; reflexivity|].
    split; [intros H; now elim H|].
    split; split; try discriminate; intros H; now elim H.
Qed.

(** X4: a 200 is sent only when both calls delivered rows, and its
    [data] are the rows of the data statement as they came, none added,
    dropped or changed. *)
Theorem success_passes_rows_through q :
  status (response (handle q)) = 200 ->
  exists rows row0 rest,
    pool_query (fst (data_call q)) (snd (data_call q)) = Rows rows
    /\ pool_query (fst (count_call q)) (snd (count_call q))
       = Rows (row0 :: rest)
    /\ body_data (body (response (handle q))) = Some rows.
Proof.
  intros H.
  destruct (validation_cases q) as [[Hp Hl]|Hr].
  2:{ destruct (get_commits_rejected pool_query NODE_ENV count_rejects_first q Hr) as [e E].
      rewrite E in H. discriminate H. }
  destruct (accepted_response q Hp Hl) as [E _]. rewrite E in *.
  unfold assemble, server_error in *.
  destruct (pool_query (fst (data_call q)) (snd (data_call q)))
    as [rows|m];
    destruct (pool_query (fst (count_call q)) (snd (count_call q)))
      as [[|row0 rest]|m']; try discriminate H.
  exists rows, row0, rest. repeat split.
Qed.




(** X7: when the count statement delivers no row at all, the answer is a
    500 without data, whatever the data statement delivered; in
    development, if the data statement did deliver, the message is that
    of the failed read of [rows[0].total]. *)
Theorem count_without_row_fails q :
  1 <= validated_page q -> 1 <= validated_limit q <= 100 ->
  pool_query (fst (count_call q)) (snd (count_call q)) = Rows [] ->
  status (response (handle q)) = 500
  /\ body_success (body (response (handle q))) = Some false
  /\ body_data (body (response (handle q))) = None
  /\ (forall rows,
        pool_query (fst (data_call q)) (snd (data_call q)) = Rows rows ->
        NODE_ENV = Some "development" ->
        body_message (body (response (handle q))) = Some no_row_message).
Proof.
  intros Hp Hl Hc.
  destruct (accepted_response q Hp Hl) as [-> _]. rewrite Hc.
  unfold assemble, server_error.
  destruct (pool_query (fst (data_call q)) (snd (data_call q))) as [rows|m];
    cbn [status body body_success body_data body_message];
    repeat split; try discriminate.
  intros rows' _ ->. reflexivity.
Qed.

(** X8: when the first row of the count statement has no [total] column,
    or one that does not start with a number, the answer is still a 200
    with the rows of the data statement; [total] and [totalPages] are
    [NaN] and [hasNextPage] is false. *)
Theorem count_without_total q rows row0 rest :
  1 <= validated_page q -> 1 <= validated_limit q <= 100 ->
  pool_query (fst (data_call q)) (snd (data_call q)) = Rows rows ->
  pool_query (fst (count_call q)) (snd (count_call q)) = Rows (row0 :: rest) ->
  JS.parseInt (field "total" row0) = JS.NaN ->
  response (handle q)
  = {| status := 200;
       body := PageBody true rows
                 {| total := JS.NaN;
                    page := validated_page q;
                    limit := validated_limit q;
                    totalPages := JS.NaN;
                    hasNextPage := false;
                    hasPrevPage := 1 <? validated_page q |}
                 {| startDate := JS.or_null (query_start_date q);
                    endDate := JS.or_null (query_end_date q) |} |}.
Proof.
  intros Hp Hl Hd Hc Hn.
  destruct (accepted_response q Hp Hl) as [-> _].
  rewrite Hd, Hc. unfold assemble. rewrite Hn. reflexivity.
Qed.

End Validation.

(** *** Numerals followed by other text *)

Lemma to_uint_no_leading_zero p u : Pos.to_uint p <> D0 u.
Proof.
  intros E.
  pose proof (DecimalPos.Unsigned.to_of (Pos.to_uint p)) as H.
  rewrite DecimalPos.Unsigned.of_to in H. cbn [N.to_uint] in H.
  unfold unorm in H.
  destruct (nzhead (Pos.to_uint p)) eqn:N;
    try (rewrite E in H; discriminate H).
  - exact (DecimalPos.Unsigned.to_uint_nonzero p H).
  - exact (DecimalFacts.nzhead_nonzero _ _ N).
Qed.

Lemma digit_of_other c : Pg.is_digit c = false -> JS.digit_of 10 c = None.
Proof.
  destruct c as [[|] [|] [|] [|] [|] [|] [|] [|]];
    intros H; try discriminate H; reflexivity.
Qed.

Lemma digits_value_stops a t :
  ends_numeral t = true -> JS.digits_value 10 (Some a) t = Some a.
Proof.
  destruct t as [|c t]; [reflexivity|].
  cbn [ends_numeral JS.digits_value]. intros H.
  apply negb_true_iff in H. now rewrite (digit_of_other c H).
Qed.

Lemma digits_value_uint_then d : forall a t,
  ends_numeral t = true ->
  JS.digits_value 10 (Some a) (NilEmpty.string_of_uint d ++ t)
  = Some (uint_value a d).
Proof.
  induction d as [|d IH|d IH|d IH|d IH|d IH|d IH|d IH|d IH|d IH|d IH];
    intros a t Ht;
    cbn [NilEmpty.string_of_uint append uint_value];
    [now apply digits_value_stops|..];
    cbn [JS.digits_value];
    match goal with
    | |- context [JS.digit_of 10 ?c] =>
        rewrite (proj2 (proj2 (proj2 (proj2 (proj2
                   (digit_char_facts c eq_refl))))))
    end; now apply IH.
Qed.

(** [parseInt] reads the numeral of a positive number and ignores what
    follows it. *)
Lemma parseInt_numeral_then p t :
  ends_numeral t = true ->
  JS.parseInt (Some (JS.decimal (Z.pos p) ++ t))
  = JS.Int (JS.to_double (Z.pos p)).
Proof.
  intros Ht. unfold JS.parseInt, JS.ToString.
  rewrite decimal_pos, <- (uint_value_to_uint p).
  assert (H : exists c d',
             NilEmpty.string_of_uint (Pos.to_uint p)
             = String c (NilEmpty.string_of_uint d')
             /\ Pg.is_digit c = true /\ (c =? "0")%char = false
             /\ uint_value 0 (Pos.to_uint p) = uint_value (Pg.code c - 48) d').
  { pose proof (DecimalPos.Unsigned.to_uint_nonnil p) as Hnil.
    pose proof (to_uint_no_leading_zero p) as Hz.
    destruct (Pos.to_uint p) as [|d|d|d|d|d|d|d|d|d|d];
      [now elim Hnil|now elim (Hz d)|..];
      eexists; exists d; repeat split. }
  destruct H as (c & d' & -> & Hc & Hc0 & ->).
  destruct (digit_char_facts c Hc) as (Hsp & Hm & Hp & _ & _ & Hv).
  unfold JS.parseInt_string. cbn [append].
  rewrite (trim_start_digit c _ Hc), Hm, Hp. cbv zeta.
  assert (Hr : match String c (NilEmpty.string_of_uint d' ++ t) with
               | String c0 (String c1 r) =>
                   if ((c0 =? "0") && ((c1 =? "x") || (c1 =? "X")))%char
                   then (16, r)
                   else (10, String c (NilEmpty.string_of_uint d' ++ t))
               | _ => (10, String c (NilEmpty.string_of_uint d' ++ t))
               end = (10, String c (NilEmpty.string_of_uint d' ++ t))).
  { destruct (NilEmpty.string_of_uint d' ++ t); [reflexivity|].
    now rewrite Hc0. }
  rewrite Hr. cbn [JS.digits_value]. rewrite Hv.
  rewrite (digits_value_uint_then d' _ t Ht). reflexivity.
Qed.

(** X9: a [page] or [limit] written as the digits of a number from 1 to
    2^53 - 1 and followed by text that does not start with a digit is read
    as that number: the text after the digits is ignored, and the request
    is handled exactly like the one with the digits alone. *)
Theorem text_after_numeral_ignored pool_query NODE_ENV first q n t :
  1 <= n < JS.safe_bound -> ends_numeral t = true ->
  validated_page (set_page (Some (JS.decimal n ++ t)) q) = n
  /\ validated_limit (set_limit (Some (JS.decimal n ++ t)) q) = n
  /\ get_commits pool_query NODE_ENV first
       (set_page (Some (JS.decimal n ++ t)) q)
     = get_commits pool_query NODE_ENV first
         (set_page (Some (JS.decimal n)) q)
  /\ get_commits pool_query NODE_ENV first
       (set_limit (Some (JS.decimal n ++ t)) q)
     = get_commits pool_query NODE_ENV first
         (set_limit (Some (JS.decimal n)) q).
Proof.
  intros Hn Ht. destruct n as [|p|p]; try lia.
  pose proof (parseInt_numeral_then p t Ht) as E.
  rewrite to_double_safe in E by lia.
  pose proof (parseInt_number (Z.pos p) ltac:(lia)) as E0.
  unfold validated_page, validated_limit, get_commits.
  cbn [set_page set_limit query_page query_limit
       query_start_date query_end_date].
  rewrite E, E0. repeat split.
Qed.

(** *** What the outcome depends on *)

(** X10: the statements sent for a request do not depend on what the
    store answers nor on [NODE_ENV]: the data statement and the count
    statement are both sent whatever becomes of the other, and a request
    rejected with 400 is rejected in the same way in front of any store. *)
Theorem calls_depend_on_request_only pq1 pq2 env1 env2 first1 first2 q :
  issued (get_commits pq1 env1 first1 q) = issued (get_commits pq2 env2 first2 q)
  /\ (status (response (get_commits pq1 env1 first1 q)) = 400 ->
      get_commits pq1 env1 first1 q = get_commits pq2 env2 first2 q).
Proof.
  destruct (validation_cases q) as [[Hp Hl]|Hr].
  - rewrite (get_commits_accepted pq1 env1 first1 q Hp Hl),
            (get_commits_accepted pq2 env2 first2 q Hp Hl).
    split; [reflexivity|]. cbn [response]. intros H.
    match type of H with
    | status (assemble ?e ?f ?a ?b ?p ?l ?s ?t) = _ =>
        destruct (assemble_status e f a b p l s t) as [E|E];
          rewrite E in H; discriminate H
    end.
  - unfold get_commits. fold (validated_page q) (validated_limit q).
    destruct ((validated_page q <? 1) || (validated_limit q <? 1));
      [split; reflexivity|].
    destruct (validated_limit q >? 100) eqn:E3; [split; reflexivity|].
    rewrite Z.gtb_ltb in E3. apply Z.ltb_ge in E3.
    split; [reflexivity|]. cbn [response]. intros H.
    match type of H with
    | status (assemble ?e ?f ?a ?b ?p ?l ?s ?t) = _ =>
        destruct (assemble_status e f a b p l s t) as [E|E];
          rewrite E in H; discriminate H
    end.
Qed.

(** X11: [NODE_ENV] has no influence on the status, and none on the
    response unless it is a 500: it only decides whether the error
    message is shown. *)
Theorem node_env_only_shapes_errors pool_query env1 env2 first q :
  status (response (get_commits pool_query env1 first q))
  = status (response (get_commits pool_query env2 first q))
  /\ (status (response (get_commits pool_query env1 first q)) <> 500 ->
      get_commits pool_query env1 first q = get_commits pool_query env2 first q).
Proof.
  unfold get_commits. fold (validated_page q) (validated_limit q).
  destruct ((validated_page q <? 1) || (validated_limit q <? 1));
    [split; reflexivity|].
  destruct (validated_limit q >? 100); [split; reflexivity|].
  rewrite countQueryParams_empty. cbn [response].
  unfold assemble, server_error.
  destruct (pool_query _ []) as [rows|m];
    destruct (pool_query _ []) as [[|row0 rest]|m'];
    cbn [status]; split; try reflexivity; intros H; now elim H.
Qed.

(** *** Pages in front of the store *)


Section Pages.

Variable timestamptz_in : string -> option Z.
Variable table : list Pg.commit.
Variable NODE_ENV : option string.
Variable count_rejects_first : bool.

#[local] Abbreviation store := (Pg.query timestamptz_in table).

(** The whole response to a request that passes validation and whose
    dates are timestamps. *)
Lemma page_response q lo hi :
  1 <= validated_page q -> 1 <= validated_limit q <= 100 ->
  validated_page q * validated_limit q < JS.safe_bound ->
  matching_count lo hi table < JS.safe_bound ->
  denotes timestamptz_in (query_start_date q) lo ->
  denotes timestamptz_in (query_end_date q) hi ->
  response (get_commits store NODE_ENV count_rejects_first q)
  = {| status := 200;
       body :=
         PageBody true
           (block (validated_page q * validated_limit q) (validated_limit q)
              (Pg.sort (matching lo hi table)))
           {| total := JS.Int (matching_count lo hi table);
              page := validated_page q;
              limit := validated_limit q;
              totalPages :=
                JS.Int (JS.ceil_div (matching_count lo hi table)
                          (validated_limit q));
              hasNextPage :=
                validated_page q
                <? JS.ceil_div (matching_count lo hi table) (validated_limit q);
              hasPrevPage := 1 <? validated_page q |}
           {| startDate := JS.or_null (query_start_date q);
              endDate := JS.or_null (query_end_date q) |} |}.
Proof.
  intros Hp Hl Hb Hn Hs He.
  rewrite (get_commits_accepted store NODE_ENV count_rejects_first q Hp Hl). cbn [response].
  rewrite (data_call_answer timestamptz_in table q lo hi Hp Hl Hb Hs He).
  rewrite (count_call_answer timestamptz_in table q lo hi Hs He).
  unfold assemble. cbn [field String.eqb Ascii.eqb Bool.eqb].
  rewrite parseInt_number by (unfold matching_count in *; lia).
  reflexivity.
Qed.

(** The rows of that response. *)
Lemma page_data q lo hi :
  1 <= validated_page q -> 1 <= validated_limit q <= 100 ->
  validated_page q * validated_limit q < JS.safe_bound ->
  denotes timestamptz_in (query_start_date q) lo ->
  denotes timestamptz_in (query_end_date q) hi ->
  body_data (body (response (get_commits store NODE_ENV count_rejects_first q)))
  = Some (block (validated_page q * validated_limit q) (validated_limit q)
            (Pg.sort (matching lo hi table))).
Proof.
  intros Hp Hl Hb Hs He.
  rewrite (get_commits_accepted store NODE_ENV count_rejects_first q Hp Hl).
  cbn [response].
  rewrite (data_call_answer timestamptz_in table q lo hi Hp Hl Hb Hs He).
  rewrite (count_call_answer timestamptz_in table q lo hi Hs He).
  reflexivity.
Qed.

Lemma block_length k l sel :
  0 <= k -> 0 <= l ->
  Z.of_nat (List.length (block k l sel))
  = Z.min l (Z.max 0 (Z.of_nat (List.length sel) - k)).
Proof.
  intros Hk Hl. unfold block.
  rewrite length_map, length_firstn, length_skipn. lia.
Qed.

Lemma sort_length l : List.length (Pg.sort l) = List.length l.
Proof. symmetry. apply Permutation_length, sort_perm. Qed.

(** X12: for a request that passes validation, whose dates are
    timestamps and whose [page * limit] is below 2^53, a page holds
    [limit] rows when at least that many matching rows remain after the
    [page * limit] skipped ones, the remaining ones when fewer remain, and
    none when none remain; so never more than [limit]. *)
Theorem page_size q lo hi :
  1 <= validated_page q -> 1 <= validated_limit q <= 100 ->
  validated_page q * validated_limit q < JS.safe_bound ->
  denotes timestamptz_in (query_start_date q) lo ->
  denotes timestamptz_in (query_end_date q) hi ->
  exists rows,
    body_data
      (body (response (get_commits store NODE_ENV count_rejects_first q)))
    = Some rows
    /\ Z.of_nat (List.length rows)
       = Z.min (validated_limit q)
           (Z.max 0 (matching_count lo hi table
                     - validated_page q * validated_limit q))
    /\ Z.of_nat (List.length rows) <= validated_limit q.
Proof.
  intros Hp Hl Hb Hs He.
  rewrite (page_data q lo hi Hp Hl Hb Hs He).
  eexists. split; [reflexivity|].
  rewrite block_length by nia. rewrite sort_length.
  unfold matching_count. lia.
Qed.




(** X15: for a request that passes validation, whose dates are
    timestamps and whose [page * limit] is below 2^53, on a table with
    fewer than 2^53 matching rows, the response is a 200 that reports the
    number of matching rows as [total]; its [data] is empty exactly when
    [page * limit] reaches that number, and exactly then [hasNextPage] is
    false. *)
Theorem empty_page_iff_no_next q lo hi :
  1 <= validated_page q -> 1 <= validated_limit q <= 100 ->
  validated_page q * validated_limit q < JS.safe_bound ->
  matching_count lo hi table < JS.safe_bound ->
  denotes timestamptz_in (query_start_date q) lo ->
  denotes timestamptz_in (query_end_date q) hi ->
  exists rows pg,
    status (response (get_commits store NODE_ENV count_rejects_first q)) = 200
    /\ body_data (body (response (get_commits store NODE_ENV count_rejects_first q))) = Some rows
    /\ body_pagination (body (response (get_commits store NODE_ENV count_rejects_first q)))
       = Some pg
    /\ total pg = JS.Int (matching_count lo hi table)
    /\ (rows = [] <->
        matching_count lo hi table <= validated_page q * validated_limit q)
    /\ (rows = [] <-> hasNextPage pg = false).
Proof.
  intros Hp Hl Hb Hn Hs He.
  rewrite (page_response q lo hi Hp Hl Hb Hn Hs He).
  cbn [status body body_data body_pagination].
  eexists. eexists. split; [reflexivity|]. split; [reflexivity|].
  split; [reflexivity|]. cbn [total hasNextPage]. split; [reflexivity|].
  set (N := matching_count lo hi table).
  set (rows := block _ _ _).
  assert (Hlen : Z.of_nat (List.length rows)
                 = Z.min (validated_limit q)
                     (Z.max 0 (N - validated_page q * validated_limit q))).
  { unfold rows. rewrite block_length by nia. rewrite sort_length.
    reflexivity. }
  assert (Hempty : rows = [] <-> N <= validated_page q * validated_limit q).
  { split; intros H.
    - rewrite H in Hlen. cbn [List.length] in Hlen. lia.
    - destruct rows as [|r rs]; [reflexivity|].
      cbn [List.length] in Hlen. lia. }
  split; [exact Hempty|].
  rewrite Hempty, Z.ltb_ge.
  pose proof (ceil_div_spec N (validated_limit q) ltac:(lia)) as Hc.
  split; intros; nia.
Qed.

(** X16: for a request that passes validation with [page * limit] below
    2^53, a non-empty start date without quote that the store does not
    read as a timestamp, the end date being without quote too, makes the
    data statement fail: both statements are sent, the data statement is
    rejected, and the answer is a 500 without data. *)
Theorem unreadable_start_date_fails q :
  1 <= validated_page q -> 1 <= validated_limit q <= 100 ->
  validated_page q * validated_limit q < JS.safe_bound ->
  JS.truthy (query_start_date q) = true ->
  plain (query_start_date q) = true -> plain (query_end_date q) = true ->
  timestamptz_in (JS.ToString (query_start_date q)) = None ->
  status (response (get_commits store NODE_ENV count_rejects_first q)) = 500
  /\ body_data
       (body (response (get_commits store NODE_ENV count_rejects_first q)))
     = None
  /\ (exists m, store (fst (data_call q)) (snd (data_call q)) = Rejected m)
  /\ issued (get_commits store NODE_ENV count_rejects_first q)
     = [data_call q; count_call q].
Proof.
  intros Hp Hl Hb Ht Hs He Hn.
  assert (Hl0 : 1 <= validated_limit q < JS.safe_bound)
    by (unfold JS.safe_bound; lia).
  assert (Hf0 : 0 <= validated_page q * validated_limit q < JS.safe_bound)
    by nia.
  assert (Hd : store (fst (data_call q)) (snd (data_call q))
               = Rejected
                   (Pg.bad_timestamp (JS.ToString (query_start_date q)))).
  { unfold data_call. cbn [fst snd].
    rewrite (query_read timestamptz_in table _ _
               (PgFacts.read_data_statement _ _ _ _ Hs He Hl0 Hf0)).
    cbn [Pg.run]. unfold where_cond, Pg.select_where. rewrite Ht.
    destruct (JS.truthy (query_end_date q)); cbn [andb Pg.read_cond];
      rewrite Hn; reflexivity. }
  rewrite (get_commits_accepted store NODE_ENV count_rejects_first q Hp Hl).
  cbn [response issued]. rewrite Hd. unfold assemble, server_error.
  destruct (Pg.query timestamptz_in table (fst (count_call q))
              (snd (count_call q))) as [rows|m];
    cbn [status body body_data]; repeat split; eexists; reflexivity.
Qed.

Lemma in_skipn {A : Type} n (l : list A) x : In x (skipn n l) -> In x l.
Proof.
  intros H. rewrite <- (firstn_skipn n l). apply in_or_app. now right.
Qed.

(** X17: for a request that passes validation, whose dates are
    timestamps without quote character and whose [page * limit] is below
    2^53, every row of the page is a row of the table that the date filter
    allows. *)
Theorem returned_rows_are_allowed q lo hi rows r :
  1 <= validated_page q -> 1 <= validated_limit q <= 100 ->
  validated_page q * validated_limit q < JS.safe_bound ->
  denotes timestamptz_in (query_start_date q) lo ->
  denotes timestamptz_in (query_end_date q) hi ->
  body_data (body (response (get_commits store NODE_ENV count_rejects_first q))) = Some rows ->
  In r rows ->
  exists c,
    In c table /\ r = Pg.columns c
    /\ in_range lo hi (Pg.created_at c) = true.
Proof.
  intros Hp Hl Hb Hs He Hd Hr.
  rewrite (page_data q lo hi Hp Hl Hb Hs He) in Hd. injection Hd as <-.
  unfold block in Hr. apply in_map_iff in Hr as (c & <- & Hc).
  apply in_firstn, in_skipn in Hc.
  apply (Permutation_in _ (Permutation_sym (sort_perm _))) in Hc.
  unfold matching in Hc. apply filter_In in Hc as [Hin Hok].
  exists c. repeat split; assumption.
Qed.

(** X18: for a request that passes validation with [page * limit] below
    2^53, when the end date lies before the start date nothing matches:
    the answer is a 200 with no row, [total] 0, [totalPages] 0 and no next
    page; the dates are not swapped. *)
Theorem inverted_range_is_empty q a b :
  1 <= validated_page q -> 1 <= validated_limit q <= 100 ->
  validated_page q * validated_limit q < JS.safe_bound ->
  denotes timestamptz_in (query_start_date q) (Some a) ->
  denotes timestamptz_in (query_end_date q) (Some b) ->
  b < a ->
  response (get_commits store NODE_ENV count_rejects_first q)
  = {| status := 200;
       body :=
         PageBody true []
           {| total := JS.Int 0;
              page := validated_page q;
              limit := validated_limit q;
              totalPages := JS.Int 0;
              hasNextPage := false;
              hasPrevPage := 1 <? validated_page q |}
           {| startDate := JS.or_null (query_start_date q);
              endDate := JS.or_null (query_end_date q) |} |}.
Proof.
  intros Hp Hl Hb Hs He Hab.
  assert (E : matching (Some a) (Some b) table = []).
  { unfold matching. induction table as [|c l IH]; [reflexivity|].
    cbn [filter]. rewrite IH. unfold in_range.
    destruct (a <=? Pg.created_at c) eqn:E1;
      destruct (Pg.created_at c <=? b) eqn:E2; try reflexivity.
    apply Z.leb_le in E1, E2. lia. }
  rewrite (page_response q (Some a) (Some b) Hp Hl Hb);
    [|unfold matching_count; rewrite E; reflexivity|exact Hs|exact He].
  unfold matching_count. rewrite E.
  cbn [List.length Z.of_nat Pg.sort].
  assert (Ec : JS.ceil_div 0 (validated_limit q) = 0).
  { pose proof (ceil_div_spec 0 (validated_limit q) ltac:(lia)). nia. }
  rewrite Ec.
  assert (Eb : forall k l, block k l [] = []).
  { intros k l. unfold block. now rewrite skipn_nil, firstn_nil. }
  rewrite Eb.
  destruct (validated_page q <? 0) eqn:E0; [apply Z.ltb_lt in E0; lia|].
  reflexivity.
Qed.

End Pages.

(** *** The further properties at concrete requests *)

Ltac evaluated := vm_compute; first [reflexivity | discriminate].

Lemma negative_parameter_rejected_witness :
  JS.parseInt (query_page (page_limit "-1" "10")) = JS.Int (-1)
  /\ get_commits store25 None false (page_limit "-1" "10") = invalid_pagination.
Proof.
  assert (H : JS.parseInt (query_page (page_limit "-1" "10")) = JS.Int (-1))
    by reflexivity.
  split; [exact H|].
  apply (negative_parameter_rejected store25 None false _ (-1) (or_introl H)).
  lia.
Defined.

Lemma oversized_limit_rejected_witness :
  JS.parseInt (query_limit (page_limit "1" "101")) = JS.Int 101
  /\ get_commits store25 None false (page_limit "1" "101") = limit_too_large.
Proof.
  assert (H : JS.parseInt (query_limit (page_limit "1" "101")) = JS.Int 101)
    by reflexivity.
  split; [exact H|].
  apply (oversized_limit_rejected store25 None false _ 101 H); [lia|evaluated].
Defined.

Lemma success_passes_rows_through_witness :
  status (response (get_commits store25 None false (page_limit "1" "10"))) = 200
  /\ exists rows,
       store25 (fst (data_call (page_limit "1" "10")))
               (snd (data_call (page_limit "1" "10"))) = Rows rows
       /\ body_data
            (body (response (get_commits store25 None false (page_limit "1" "10"))))
          = Some rows.
Proof.
  assert (H : status (response
                        (get_commits store25 None false (page_limit "1" "10")))
              = 200) by evaluated.
  split; [exact H|].
  destruct (success_passes_rows_through store25 None false _ H)
    as (rows & _ & _ & Hd & _ & Hb).
  exists rows. split; assumption.
Defined.



Lemma count_without_row_fails_witness :
  rowless (fst (count_call bare)) (snd (count_call bare)) = Rows []
  /\ status (response (get_commits rowless (Some "development") false bare)) = 500
  /\ body_message (body (response (get_commits rowless (Some "development") false bare)))
     = Some no_row_message.
Proof.
  assert (H : rowless (fst (count_call bare)) (snd (count_call bare)) = Rows [])
    by reflexivity.
  split; [exact H|].
  destruct (count_without_row_fails rowless (Some "development") false bare)
    as (Hs & _ & _ & Hm); [evaluated|split; evaluated|exact H|].
  split; [exact Hs|]. apply (Hm []); reflexivity.
Defined.

Lemma count_without_total_witness :
  JS.parseInt (field "total" []) = JS.NaN
  /\ status (response (get_commits columnless None false bare)) = 200
  /\ body_data (body (response (get_commits columnless None false bare)))
     = Some [[]].
Proof.
  split; [reflexivity|].
  rewrite (count_without_total columnless None false bare [[]] [] []);
    [split; reflexivity|evaluated|split; evaluated
    |reflexivity|reflexivity|reflexivity].
Defined.

Lemma text_after_numeral_ignored_witness :
  ends_numeral "nd page" = true
  /\ validated_page
       (set_page (Some (JS.decimal 2 ++ "nd page")) bare) = 2.
Proof.
  split; [reflexivity|].
  destruct (text_after_numeral_ignored store25 None false bare 2 "nd page")
    as (H & _); [unfold JS.safe_bound; lia|reflexivity|exact H].
Defined.

(** [january_request] passes validation, its dates are timestamps and its
    numbers are small. *)
Lemma january_request_ok :
  1 <= validated_page january_request
  /\ 1 <= validated_limit january_request <= 100
  /\ denotes Pg.iso_date (query_start_date january_request) (Some 20240105)
  /\ denotes Pg.iso_date (query_end_date january_request) (Some 20240120).
Proof.
  split; [evaluated|]. split; [split; evaluated|].
  split; split; evaluated.
Defined.

Lemma january_request_small :
  validated_page january_request * validated_limit january_request
  < JS.safe_bound
  /\ (validated_page january_request + 1) * validated_limit january_request
     < JS.safe_bound
  /\ matching_count (Some 20240105) (Some 20240120) table25 < JS.safe_bound.
Proof. repeat split. Defined.

Lemma page_size_witness :
  (1 <= validated_page january_request
   /\ 1 <= validated_limit january_request <= 100
   /\ denotes Pg.iso_date (query_start_date january_request) (Some 20240105)
   /\ denotes Pg.iso_date (query_end_date january_request) (Some 20240120))
  /\ validated_page january_request * validated_limit january_request
     < JS.safe_bound
  /\ exists rows,
       body_data
         (body (response (get_commits store25 None false january_request)))
       = Some rows
       /\ Z.of_nat (List.length rows) <= validated_limit january_request.
Proof.
  split; [exact january_request_ok|].
  destruct january_request_ok as (Hp & Hl & Hs & He).
  destruct january_request_small as (Hb & _ & _).
  split; [exact Hb|].
  destruct (page_size Pg.iso_date table25 None false january_request _ _
              Hp Hl Hb Hs He) as (rows & Hd & _ & Hle).
  exists rows. split; assumption.
Defined.



Lemma empty_page_iff_no_next_witness :
  (1 <= validated_page january_request
   /\ 1 <= validated_limit january_request <= 100
   /\ denotes Pg.iso_date (query_start_date january_request) (Some 20240105)
   /\ denotes Pg.iso_date (query_end_date january_request) (Some 20240120))
  /\ (validated_page january_request * validated_limit january_request
      < JS.safe_bound
      /\ matching_count (Some 20240105) (Some 20240120) table25
         < JS.safe_bound)
  /\ exists rows pg,
       body_data
         (body (response (get_commits store25 None false january_request)))
       = Some rows
       /\ body_pagination
            (body (response (get_commits store25 None false january_request)))
          = Some pg
       /\ (rows = [] <-> hasNextPage pg = false).
Proof.
  split; [exact january_request_ok|].
  destruct january_request_ok as (Hp & Hl & Hs & He).
  destruct january_request_small as (Hb & _ & Hn).
  split; [split; assumption|].
  destruct (empty_page_iff_no_next Pg.iso_date table25 None false
              january_request _ _ Hp Hl Hb Hn Hs He)
    as (rows & pg & _ & Hd & Hg & _ & _ & Hiff).
  exists rows, pg. repeat split; try assumption; apply Hiff.
Defined.

Lemma unreadable_start_date_fails_witness :
  Pg.iso_date (JS.ToString (query_start_date unreadable_request)) = None
  /\ validated_page unreadable_request * validated_limit unreadable_request
     < JS.safe_bound
  /\ status (response (get_commits store25 None false unreadable_request))
     = 500.
Proof.
  split; [reflexivity|]. split; [reflexivity|].
  destruct (unreadable_start_date_fails Pg.iso_date table25 None false
              unreadable_request) as (H & _);
    [evaluated|split; evaluated|reflexivity|reflexivity|reflexivity
    |reflexivity|reflexivity|exact H].
Defined.

Lemma returned_rows_are_allowed_witness :
  body_data (body (response (get_commits store25 None false january_request)))
  = Some (rows_from 15 6)
  /\ In (Pg.columns (commit_number 15)) (rows_from 15 6)
  /\ exists c,
       In c table25 /\ Pg.columns (commit_number 15) = Pg.columns c
       /\ in_range (Some 20240105) (Some 20240120) (Pg.created_at c) = true.
Proof.
  assert (Hd : body_data
                 (body (response
                          (get_commits store25 None false january_request)))
               = Some (rows_from 15 6)) by evaluated.
  assert (Hin : In (Pg.columns (commit_number 15)) (rows_from 15 6))
    by (left; reflexivity).
  split; [exact Hd|]. split; [exact Hin|].
  destruct january_request_ok as (Hp & Hl & Hs & He).
  destruct january_request_small as (Hb & _ & _).
  exact (returned_rows_are_allowed Pg.iso_date table25 None false
           january_request _ _ _ _ Hp Hl Hb Hs He Hd Hin).
Defined.

Lemma inverted_range_is_empty_witness :
  denotes Pg.iso_date (query_start_date inverted_request) (Some 20240120)
  /\ denotes Pg.iso_date (query_end_date inverted_request) (Some 20240105)
  /\ validated_page inverted_request * validated_limit inverted_request
     < JS.safe_bound
  /\ body_data
       (body (response (get_commits store25 None false inverted_request)))
     = Some [].
Proof.
  assert (Hs : denotes Pg.iso_date (query_start_date inverted_request)
                 (Some 20240120)) by (split; evaluated).
  assert (He : denotes Pg.iso_date (query_end_date inverted_request)
                 (Some 20240105)) by (split; evaluated).
  assert (Hb : validated_page inverted_request
               * validated_limit inverted_request < JS.safe_bound)
    by reflexivity.
  split; [exact Hs|]. split; [exact He|]. split; [exact Hb|].
  assert (Hp : 1 <= validated_page inverted_request) by evaluated.
  assert (Hl : 1 <= validated_limit inverted_request <= 100)
    by (split; evaluated).
  pose proof (inverted_range_is_empty Pg.iso_date table25 None false
                inverted_request 20240120 20240105 Hp Hl Hb Hs He
                ltac:(lia))
    as E.
  fold store25 in E. rewrite E. reflexivity.
Defined.
